(** * XP B3 Parser: a shallow embedding of [agno_agent.py]

    The service is one FastAPI application: a module-level configuration
    step, an HTTP middleware [api_key_guard], a helper
    [extract_text_from_pdf] and the endpoint [predict].  Python [str] values
    are sequences of Unicode code points, the temporary file lives in an
    explicit file system, and the three collaborators the code calls (the
    upload object, [PdfReader], the completion service) are oracles whose
    every call is logged; the client of the service is modelled with the
    retries it is built with. *)

From Stdlib Require Import String Ascii NArith ZArith List Bool Lia.
From stdpp Require Import base option list gmap strings.

Set Warnings "-abstract-large-number".

Local Open Scope N_scope.

(** ** Python strings *)

(** A Python [str] is a sequence of code points; [len] and slicing count code
    points, which is what [text[:6000]] relies on. *)
Definition pystr : Type := list N.

(** Uploaded data is a Python [bytes] object. *)
Definition bytes : Type := list N.

(** Decoding of the UTF-8 bytes of a literal of this file into code points; it
    is only the notation for the string constants of the program. *)
Fixpoint utf8_decode (bs : list N) : pystr :=
  match bs with
  | [] => []
  | b :: r =>
      if b <? 128 then b :: utf8_decode r
      else if b <? 224 then
        match r with
        | c1 :: r1 =>
            N.lor (N.shiftl (N.land b 31) 6) (N.land c1 63) :: utf8_decode r1
        | _ => []
        end
      else if b <? 240 then
        match r with
        | c1 :: c2 :: r2 =>
            N.lor (N.shiftl (N.land b 15) 12)
              (N.lor (N.shiftl (N.land c1 63) 6) (N.land c2 63))
            :: utf8_decode r2
        | _ => []
        end
      else
        match r with
        | c1 :: c2 :: c3 :: r3 =>
            N.lor (N.shiftl (N.land b 7) 18)
              (N.lor (N.shiftl (N.land c1 63) 12)
                 (N.lor (N.shiftl (N.land c2 63) 6) (N.land c3 63)))
            :: utf8_decode r3
        | _ => []
        end
  end.

Definition py (s : string) : pystr :=
  utf8_decode (map N_of_ascii (list_ascii_of_string s)).

(** The double quote and the line feed, which the literals below splice in. *)
Definition dq : pystr := [34].
Definition nl : pystr := [10].

(** [a == b] on [str]. *)
Fixpoint str_eqb (a b : pystr) : bool :=
  match a, b with
  | [], [] => true
  | x :: a', y :: b' => (x =? y) && str_eqb a' b'
  | _, _ => false
  end.

(** [a == b] where either side may be [None]. *)
Definition opt_str_eqb (a b : option pystr) : bool :=
  match a, b with
  | None, None => true
  | Some x, Some y => str_eqb x y
  | _, _ => false
  end.

(** [s.startswith(p)]. *)
Fixpoint startswith (s p : pystr) : bool :=
  match p, s with
  | [], _ => true
  | c :: p', d :: s' => (c =? d) && startswith s' p'
  | _ :: _, [] => false
  end.

(** Truthiness: [not s] holds of the empty string only, and [not v] of
    [None] and of the empty string when [v] is [Optional[str]]. *)
Definition py_not (s : pystr) : bool :=
  match s with [] => true | _ :: _ => false end.

Definition py_not_opt (v : option pystr) : bool :=
  match v with None => true | Some s => py_not s end.

(** [v or ""] for [v : Optional[str]]. *)
Definition or_empty (v : option pystr) : pystr :=
  match v with None => [] | Some s => s end.

(** [c.isspace()]: the code points CPython classifies as whitespace. *)
Definition py_isspace (c : N) : bool :=
  ((9 <=? c) && (c <=? 13)) || ((28 <=? c) && (c <=? 32))
  || (c =? 133) || (c =? 160) || (c =? 5760)
  || ((8192 <=? c) && (c <=? 8202))
  || (c =? 8232) || (c =? 8233) || (c =? 8239) || (c =? 8287)
  || (c =? 12288).

Fixpoint lstrip (s : pystr) : pystr :=
  match s with
  | [] => []
  | c :: r => if py_isspace c then lstrip r else s
  end.

Definition rstrip (s : pystr) : pystr := reverse (lstrip (reverse s)).

(** [s.strip()]. *)
Definition strip (s : pystr) : pystr := rstrip (lstrip s).

(** [s.lower()] on the ASCII letters, enough for header names. *)
Definition lower_char (c : N) : N :=
  if (65 <=? c) && (c <=? 90) then c + 32 else c.

Definition lower (s : pystr) : pystr := map lower_char s.

(** ** Values exchanged over HTTP *)

(** The JSON values the handlers produce: a string, or [null] when the
    completion carries no text. *)
Inductive json : Type :=
| JNull
| JStr (s : pystr).

(** A Python [dict] literal with string keys, in insertion order. *)
Definition pydict : Type := list (pystr * json).

(** [JSONResponse(content, status_code)], also what the framework builds from
    a [dict] a handler returns, then with status 200. *)
Record Response : Type := JSONResponse {
  content : pydict;
  status_code : Z
}.

(** A raised exception: whether it is an instance of [Exception], which is
    what [except Exception] asks, and its [str]. *)
Record exn : Type := Exn {
  is_Exception : bool;   (* instance of [Exception], not only of [BaseException] *)
  str : pystr            (* [str(e)] *)
}.

(** What a call comes to: a value, or an exception. *)
Inductive outcome (A : Type) : Type :=
| Return (a : A)
| Raise (e : exn).
Arguments Return {A} a.
Arguments Raise {A} e.

(** The upload handed to [predict]; [await file.read()] either yields the
    uploaded bytes or raises. *)
Record UploadFile : Type := { read : outcome bytes }.

(** What the middleware sees of a request; [url_path] is [request.url.path].
    Header names arrive in lower case (ASGI), in the order sent. *)
Record Request : Type := {
  method : pystr;
  url_path : pystr;
  headers : list (pystr * pystr);
  file : option UploadFile
}.

(** [request.headers.get(key)]: the first header whose name is [key] in lower
    case, [None] when there is none. *)
Fixpoint headers_get (hs : list (pystr * pystr)) (key : pystr) : option pystr :=
  match hs with
  | [] => None
  | (name, value) :: hs' =>
      if str_eqb name (lower key) then Some value else headers_get hs' key
  end.

(** ** The chat-completion call *)

Record ChatMessage : Type := { role : pystr; message_content : pystr }.

(** The keyword arguments of [client.chat.completions.create], with the
    credential of the client the call goes through. *)
Record ChatRequest : Type := {
  api_key : option pystr;
  model : pystr;
  temperature : Z;
  messages : list ChatMessage
}.

(** [completion.choices[i].message.content], which the service may leave
    [None]. *)
Record Choice : Type := { choice_content : option pystr }.
Record ChatCompletion : Type := { choices : list Choice }.

(** ** The world outside the program *)

(** A page of an opened document: what [page.extract_text()] does. *)
Definition Page : Type := outcome (option pystr).

(** What becomes of one sending of a request to the completion service, as
    the client sees it: an answer; a refusal the client raises at once (a
    status such as 400 or 401); or a failure after which the client sends the
    request again while it has retries left (no connection, a timeout, a
    status 408, 409, 429 or 5xx) and which it raises when none is left. *)
Inductive attempt : Type :=
| Answered (completion : ChatCompletion)
| Refused (e : exn)
| Failed (e : exn).

Record World : Type := {
  environ : gmap string pystr;                     (* [os.environ] *)
  pdf_reader : bytes -> outcome (list Page);        (* [PdfReader] on a file's content *)
  service : ChatRequest -> nat -> attempt;          (* the service on the i-th sending within a call *)
  framework_response : Request -> Response         (* answers no handler of the program gives *)
}.

(** Calls that leave the program, in the order made. *)
Inductive event : Type :=
| EvGetenv (name : string)
| EvRead
| EvPdfReader (tmp_name : nat)
| EvExtractText (page_index : nat)
| EvCreate (req : ChatRequest).

(** The file system holds the flushed content of each file by name; an open
    handle holds what was written and not yet flushed.  The trace holds the
    calls the program makes, the wire the requests that reach the completion
    service. *)
Record State : Type := {
  files : gmap nat bytes;
  handles : gmap nat bytes;
  trace : list event;
  wire : list ChatRequest
}.

(** ** Computations: state passing with exceptions *)

Definition M (A : Type) : Type := State -> outcome A * State.

#[global] Instance M_ret : MRet M := fun A (a : A) s => (Return a, s).

#[global] Instance M_bind : MBind M := fun A B (k : A -> M B) (m : M A) s =>
  match m s with
  | (Return a, s') => k a s'
  | (Raise e, s') => (Raise e, s')
  end.

Definition raise {A} (e : exn) : M A := fun s => (Raise e, s).

(** [try: body / except Exception as e: handler(e)]: what is not an instance
    of [Exception] passes through. *)
Definition try_except_Exception {A} (body : M A) (handler : exn -> M A) : M A :=
  fun s =>
    match body s with
    | (Return a, s') => (Return a, s')
    | (Raise e, s') =>
        if is_Exception e then handler e s' else (Raise e, s')
    end.

(** [try: body / finally: cleanup]. *)
Definition try_finally {A} (body : M A) (cleanup : M unit) : M A :=
  fun s =>
    match body s with
    | (Return a, s') =>
        match cleanup s' with
        | (Return _, s'') => (Return a, s'')
        | (Raise e, s'') => (Raise e, s'')
        end
    | (Raise e, s') =>
        match cleanup s' with
        | (Return _, s'') => (Raise e, s'')
        | (Raise e', s'') => (Raise e', s'')
        end
    end.

Definition get_state : M State := fun s => (Return s, s).

Definition modify (f : State -> State) : M unit := fun s => (Return tt, f s).

(** The state once [ev] has happened. *)
Definition logged (ev : event) (s : State) : State :=
  {| files := files s; handles := handles s; trace := trace s ++ [ev];
     wire := wire s |}.

Definition log (ev : event) : M unit := modify (logged ev).

(** Lifting the answer of an oracle. *)
Definition lift {A} (o : outcome A) : M A := fun s => (o, s).

(** ** The client of the completion service *)

(** [OpenAI(api_key=...)] sets no [max_retries], so the client keeps the
    default of the library. *)
Definition DEFAULT_MAX_RETRIES : nat := 2.

(** What one call of [client.chat.completions.create] comes to when the
    sendings, from the [i]-th on, are answered by [answers] and [retries]
    retries are left. *)
Fixpoint create_outcome (answers : nat -> attempt) (retries i : nat)
    : outcome ChatCompletion :=
  match answers i with
  | Answered completion => Return completion
  | Refused e => Raise e
  | Failed e =>
      match retries with
      | O => Raise e
      | S retries' => create_outcome answers retries' (S i)
      end
  end.

(** How many times that call sends the request. *)
Fixpoint attempts (answers : nat -> attempt) (retries i : nat) : nat :=
  match answers i with
  | Answered _ | Refused _ => 1
  | Failed _ =>
      match retries with
      | O => 1
      | S retries' => S (attempts answers retries' (S i))
      end
  end.

(** What the program gets from [client.chat.completions.create] on [req]. *)
Definition completions_create (w : World) (req : ChatRequest)
    : outcome ChatCompletion :=
  create_outcome (service w req) DEFAULT_MAX_RETRIES 0.

(** How many times one call of [client.chat.completions.create] sends
    [req]. *)
Definition sendings (w : World) (req : ChatRequest) : nat :=
  attempts (service w req) DEFAULT_MAX_RETRIES 0.

(** The state once [reqs] have gone to the service. *)
Definition wired (reqs : list ChatRequest) (s : State) : State :=
  {| files := files s; handles := handles s; trace := trace s;
     wire := wire s ++ reqs |}.

(** ** Temporary files *)

(** [tempfile.NamedTemporaryFile(...)] on entry: a file of a name not in use
    is created empty and opened. *)
Definition NamedTemporaryFile_enter : M nat :=
  s ← get_state;
  let name := fresh (dom (files s)) in
  _ ← modify (fun s => {| files := <[name := []]> (files s);
                          handles := <[name := []]> (handles s);
                          trace := trace s;
                          wire := wire s |});
  mret name.

(** [tmp.write(data)]: the data joins the handle's buffer. *)
Definition tmp_write (name : nat) (data : bytes) : M unit :=
  modify (fun s => {| files := files s;
                      handles := alter (fun buf => buf ++ data) name (handles s);
                      trace := trace s;
                      wire := wire s |}).

(** [tmp.flush()]: the buffer reaches the file. *)
Definition tmp_flush (name : nat) : M unit :=
  modify (fun s =>
    match handles s !! name with
    | Some buf =>
        {| files := alter (fun old => old ++ buf) name (files s);
           handles := <[name := []]> (handles s);
           trace := trace s;
           wire := wire s |}
    | None => s
    end).

(** Leaving the [with] block closes the handle: pending data is flushed, and
    the file is unlinked only when the handle was made with [delete=True]. *)
Definition tmp_close (delete : bool) (name : nat) : M unit :=
  _ ← tmp_flush name;
  modify (fun s =>
    {| files := if delete then base.delete name (files s) else files s;
       handles := base.delete name (handles s);
       trace := trace s;
       wire := wire s |}).

(** [with tempfile.NamedTemporaryFile(delete=...) as tmp: body]. *)
Definition with_NamedTemporaryFile {A} (delete : bool) (body : nat -> M A) : M A :=
  tmp ← NamedTemporaryFile_enter;
  try_finally (body tmp) (tmp_close delete tmp).

Definition FileNotFoundError : exn :=
  {| is_Exception := true; str := py "[Errno 2] No such file or directory" |}.

Definition IndexError : exn :=
  {| is_Exception := true; str := py "list index out of range" |}.

Definition RuntimeError (msg : pystr) : exn :=
  {| is_Exception := true; str := msg |}.

(** ** Module-level state *)

Record Client : Type := OpenAI { client_api_key : option pystr }.

(** The globals the module binds when it is imported. *)
Record Config : Type := {
  OPENAI_API_KEY : option pystr;
  API_KEY : option pystr;
  client : Client
}.

(** ** The prompt *)

Definition indent8 : pystr := py "        ".

(** One entry of the JSON skeleton of the prompt: the key in quotes, a colon
    and an empty string in quotes. *)
Definition skeleton_key (k : string) : pystr :=
  dq ++ py k ++ dq ++ py ": " ++ dq ++ dq.

(** The f-string of lines 78 to 91 up to the placeholder. *)
Definition prompt_head : pystr :=
  nl
  ++ indent8
  ++ py "Extraia do texto abaixo os principais campos de uma nota de negociação B3 (XP):"
  ++ nl
  ++ indent8 ++ py "- Data do pregão" ++ nl
  ++ indent8 ++ py "- Número da nota" ++ nl
  ++ indent8 ++ py "- Valor dos negócios" ++ nl
  ++ indent8 ++ py "- Total de custos operacionais" ++ nl
  ++ indent8 ++ py "- IRRF (projeção)" ++ nl
  ++ indent8 ++ py "- Total líquido da nota" ++ nl
  ++ indent8
  ++ py "Retorne em JSON estruturado com os nomes das chaves exatamente assim:"
  ++ nl
  ++ indent8 ++ py "{ " ++ skeleton_key "data_pregao" ++ py ", "
  ++ skeleton_key "nota_numero" ++ py ", "
  ++ skeleton_key "valor_negocios" ++ py ", " ++ nl
  ++ py "           " ++ skeleton_key "total_custos" ++ py ", "
  ++ skeleton_key "irrf_proj" ++ py ", "
  ++ skeleton_key "total_liquido_nota" ++ py " }" ++ nl
  ++ indent8 ++ py "Texto extraído:" ++ nl
  ++ indent8.

(** The f-string after the placeholder; the remark on the token limit is
    inside the literal, so it is part of the prompt. *)
Definition prompt_tail : pystr :=
  py "  # limita para evitar estouro de tokens" ++ nl ++ indent8.

(** The f-string at [text]; [text[:6000]] is the placeholder. *)
Definition prompt_of (text : pystr) : pystr :=
  prompt_head ++ take 6000%nat text ++ prompt_tail.

Definition system_content : pystr :=
  py "Você é um extrator preciso de informações de PDFs da XP/B3.".

Definition Unauthorized : Response :=
  JSONResponse [(py "detail", JStr (py "Unauthorized"))] 401.

Section Program.

Variable w : World.

(** [os.getenv(name)]. *)
Definition os_getenv (name : string) : M (option pystr) :=
  _ ← log (EvGetenv name);
  mret (environ w !! name).

(** Lines 13 to 19: the module body that runs once, when the process starts. *)
Definition module_init : M Config :=
  openai_api_key ← os_getenv "OPENAI_API_KEY";
  api_key_ ← os_getenv "API_KEY";
  if py_not_opt openai_api_key then
    raise (RuntimeError
             (py "❌ Variável de ambiente OPENAI_API_KEY não configurada."))
  else
    mret {| OPENAI_API_KEY := openai_api_key;
            API_KEY := api_key_;
            client := OpenAI openai_api_key |}.

(** [PdfReader(tmp.name)]: the document is read from the file of that name. *)
Definition PdfReader (name : nat) : M (list Page) :=
  _ ← log (EvPdfReader name);
  s ← get_state;
  match files s !! name with
  | Some data => lift (pdf_reader w data)
  | None => raise FileNotFoundError
  end.

(** [page.extract_text()] on the page of index [i]. *)
Definition extract_text (i : nat) (page : Page) : M (option pystr) :=
  _ ← log (EvExtractText i);
  lift page.

(** [for page in reader.pages: text += page.extract_text() or ""], from the
    page of index [i] on. *)
Fixpoint extract_pages (pages : list Page) (i : nat) (text : pystr) : M pystr :=
  match pages with
  | [] => mret text
  | page :: rest =>
      t ← extract_text i page;
      extract_pages rest (S i) (text ++ or_empty t)
  end.

Definition extract_text_from_pdf (file_bytes : bytes) : M pystr :=
  text ← with_NamedTemporaryFile false (fun tmp =>
    _ ← tmp_write tmp file_bytes;
    _ ← tmp_flush tmp;
    reader ← PdfReader tmp;
    extract_pages reader 0 []);
  mret (strip text).

Variable cfg : Config.

(** The client sending [req] for the [i]-th time with [retries] retries
    left: the request goes out, and the answer decides whether the call ends
    or the request is sent again. *)
Fixpoint client_request (req : ChatRequest) (retries i : nat)
    : M ChatCompletion :=
  _ ← modify (wired [req]);
  match service w req i with
  | Answered completion => mret completion
  | Refused e => raise e
  | Failed e =>
      match retries with
      | O => raise e
      | S retries' => client_request req retries' (S i)
      end
  end.

(** [client.chat.completions.create(model=..., temperature=..., messages=...)]. *)
Definition chat_completions_create
    (model_ : pystr) (temperature_ : Z) (messages_ : list ChatMessage)
    : M ChatCompletion :=
  let req := {| api_key := client_api_key (client cfg); model := model_;
                temperature := temperature_; messages := messages_ |} in
  _ ← log (EvCreate req);
  client_request req DEFAULT_MAX_RETRIES 0.

(** [completion.choices[0].message.content]. *)
Definition first_choice_content (completion : ChatCompletion) : M (option pystr) :=
  match choices completion with
  | c :: _ => mret (choice_content c)
  | [] => raise IndexError
  end.

(** [await file.read()]. *)
Definition await_read (f : UploadFile) : M bytes :=
  _ ← log EvRead;
  lift (read f).

(** *** The middleware *)

Definition api_key_guard (call_next : Request -> M Response) (request : Request)
    : M Response :=
  if startswith (url_path request) (py "/predict") then
    let key := headers_get (headers request) (py "X-API-Key") in
    if py_not_opt (API_KEY cfg) || negb (opt_str_eqb key (API_KEY cfg)) then
      mret Unauthorized
    else call_next request
  else call_next request.

(** *** The endpoints *)

(** The [try] block of [predict]. *)
Definition predict_body (file_ : UploadFile) : M pydict :=
  file_bytes ← await_read file_;
  text ← extract_text_from_pdf file_bytes;
  if py_not text then
    mret [(py "error", JStr (py "Nenhum texto encontrado no PDF."))]
  else
    let prompt := prompt_of text in
    completion ← chat_completions_create (py "gpt-4o-mini") 0
      [ {| role := py "system"; message_content := system_content |};
        {| role := py "user"; message_content := prompt |} ];
    resposta ← first_choice_content completion;
    mret [(py "resultado",
           match resposta with Some r => JStr r | None => JNull end)].

Definition predict (file_ : UploadFile) : M pydict :=
  try_except_Exception (predict_body file_)
    (fun e => mret [(py "error", JStr (str e))]).

Definition root : M pydict :=
  mret [(py "status", JStr (py "XP B3 Parser ativo"));
        (py "docs", JStr (py "/docs"))].

(** *** Routing *)

(** What [call_next] does for the application: the two registered routes run
    their handler and the returned [dict] becomes a 200 response; every other
    request (another path or method, a form without the file field) is
    answered by the framework.  Response headers, which is all the CORS
    middleware adds to these answers, are not part of [Response].  The routes
    are matched here on [request.url.path], the path the guard tests; the
    framework matches them on the path of the request line, which is the
    same unless the [Host] header itself carries a path. *)
Definition route (request : Request) : M Response :=
  if str_eqb (url_path request) (py "/predict")
     && str_eqb (method request) (py "POST") then
    match file request with
    | Some f => d ← predict f; mret (JSONResponse d 200)
    | None => mret (framework_response w request)
    end
  else if str_eqb (url_path request) (py "/")
          && str_eqb (method request) (py "GET") then
    d ← root; mret (JSONResponse d 200)
  else mret (framework_response w request).

(** The application as a request meets it: the guard around the routes.  An
    exception that leaves a handler leaves [app] as it is; what the
    framework wraps it in on the way out is not modelled. *)
Definition app (request : Request) : M Response :=
  api_key_guard route request.

End Program.

Arguments client_request : simpl never.

(** Starting the process and then serving one request with the globals the
    start bound. *)
Definition serve (w : World) (request : Request) : M Response :=
  cfg ← module_init w;
  app w cfg request.

Definition initial_state : State :=
  {| files := ∅; handles := ∅; trace := []; wire := [] |}.



(** ** What a trace shows *)

(** The requests of the calls of [client.chat.completions.create], in
    order. *)
Definition submitted (tr : list event) : list ChatRequest :=
  omap (fun ev => match ev with EvCreate req => Some req | _ => None end) tr.

(** The environment variables read, in order. *)
Definition getenvs (tr : list event) : list string :=
  omap (fun ev => match ev with EvGetenv name => Some name | _ => None end) tr.

(** The keyword arguments of the call of lines 93 to 100 when the extracted
    text is [text]. *)
Definition completion_request (cfg : Config) (text : pystr) : ChatRequest :=
  {| api_key := client_api_key (client cfg);
     model := py "gpt-4o-mini";
     temperature := 0;
     messages :=
       [ {| role := py "system"; message_content := system_content |};
         {| role := py "user"; message_content := prompt_of text |} ] |}.

(** An authorized [POST /predict] request that uploads [f]: the secret is
    configured, not empty, and the [X-API-Key] header carries it. *)
Definition authorized_upload (cfg : Config) (request : Request) (f : UploadFile)
    : Prop :=
  url_path request = py "/predict"
  /\ method request = py "POST"
  /\ file request = Some f
  /\ exists secret : pystr,
       API_KEY cfg = Some secret /\ secret <> []
       /\ headers_get (headers request) (py "X-API-Key") = Some secret.

(** ** The text of a document *)

(** The text of the pages of a document, in words: the page texts joined in
    document order, a page without text adding nothing, or the exception of
    the first page that raises. *)
Fixpoint pages_text (pages : list Page) : outcome pystr :=
  match pages with
  | [] => Return []
  | Return t :: rest =>
      match pages_text rest with
      | Return joined => Return (or_empty t ++ joined)
      | Raise e => Raise e
      end
  | Raise e :: _ => Raise e
  end.

(** The text of the document that [data] is, in words: what [PdfReader]
    raises on [data], or the text of its pages with the whitespace at both
    ends removed. *)
Definition document_text (w : World) (data : bytes) : outcome pystr :=
  match pdf_reader w data with
  | Raise e => Raise e
  | Return pages =>
      match pages_text pages with
      | Return joined => Return (strip joined)
      | Raise e => Raise e
      end
  end.

(** ** What the guard decides *)

(** The guard answers 401 itself, whatever lies behind it and without
    touching the state. *)
Definition guard_rejects (cfg : Config) (request : Request) : Prop :=
  forall (call_next : Request -> M Response) (s : State),
    api_key_guard cfg call_next request s = (Return Unauthorized, s).

(** The guard hands the request, as it is, to what lies behind it. *)
Definition guard_forwards (cfg : Config) (request : Request) : Prop :=
  forall (call_next : Request -> M Response) (s : State),
    api_key_guard cfg call_next request s = call_next request s.

(** ** Sample worlds and requests *)

Module Sample.

(** A document of three pages, the second without text. *)
Definition three_pages : list Page :=
  [Return (Some (py " Nota 123 ")); Return None; Return (Some (py "XP  "))].

Definition answer : ChatCompletion :=
  {| choices := [ {| choice_content := Some (py "nao e json") |} ] |}.

Definition env_full : gmap string pystr :=
  <["OPENAI_API_KEY"%string := py "sk-test"]>
    (<["API_KEY"%string := py "s3cret"]> ∅).

(** The model-service credential is missing. *)
Definition env_no_credential : gmap string pystr :=
  <["API_KEY"%string := py "s3cret"]> ∅.

(** The shared secret is missing. *)
Definition env_no_secret : gmap string pystr :=
  <["OPENAI_API_KEY"%string := py "sk-test"]> ∅.

Definition not_found : Response :=
  JSONResponse [(py "detail", JStr (py "Not Found"))] 404.

Definition world (pdf : outcome (list Page)) (reply : outcome ChatCompletion)
    (env : gmap string pystr) : World :=
  {| environ := env;
     pdf_reader := fun _ => pdf;
     service := fun _ _ =>
                  match reply with
                  | Return completion => Answered completion
                  | Raise e => Failed e
                  end;
     framework_response := fun _ => not_found |}.

Definition w_ok : World := world (Return three_pages) (Return answer) env_full.

(** A document whose only page is blank. *)
Definition w_blank : World :=
  world (Return [Return (Some (py "  ")); Return None]) (Return answer) env_full.

(** A document of one page with 6001 characters of text, 6000 times [A] and
    then [B]. *)
Definition long_text : pystr := replicate 6000%nat 65 ++ [66].

Definition w_long : World :=
  world (Return [Return (Some long_text)]) (Return answer) env_full.

(** The upload is not a PDF. *)
Definition w_corrupt : World :=
  world (Raise (Exn true (py "EOF marker not found"))) (Return answer) env_full.

Definition cfg_of (secret : option pystr) : Config :=
  {| OPENAI_API_KEY := Some (py "sk-test");
     API_KEY := secret;
     client := OpenAI (Some (py "sk-test")) |}.

Definition cfg : Config := cfg_of (Some (py "s3cret")).

Definition upload : UploadFile := {| read := Return [37; 80; 68; 70] |}.

Definition post_predict (hs : list (pystr * pystr)) : Request :=
  {| method := py "POST"; url_path := py "/predict"; headers := hs;
     file := Some upload |}.

Definition with_key (k : pystr) : list (pystr * pystr) :=
  [(py "content-type", py "multipart/form-data"); (py "x-api-key", k)].

Definition authorized_request : Request :=
  post_predict (with_key (py "s3cret")).

End Sample.

(** ** Further sample worlds and requests *)

Module Edge.

(** The service answers with a completion that has no choice. *)
Definition w_no_choices : World :=
  Sample.world (Return Sample.three_pages) (Return {| choices := [] |})
    Sample.env_full.

(** The service cannot be reached. *)
Definition w_service_down : World :=
  Sample.world (Return Sample.three_pages)
    (Raise (Exn true (py "Connection error."))) Sample.env_full.

(** The second of three pages cannot be read. *)
Definition w_bad_page : World :=
  Sample.world
    (Return [Return (Some (py "a")); Raise (Exn true (py "bad page"));
             Return (Some (py "b"))])
    (Return Sample.answer) Sample.env_full.

(** The credential is set to the empty string. *)
Definition env_empty_credential : gmap string pystr :=
  <["OPENAI_API_KEY"%string := []]> (<["API_KEY"%string := py "s3cret"]> ∅).

Definition w_empty_credential : World :=
  Sample.world (Return Sample.three_pages) (Return Sample.answer)
    env_empty_credential.

(** An upload whose reading fails. *)
Definition unreadable : UploadFile :=
  {| read := Raise (Exn true (py "read failed")) |}.

(** An upload whose reading is interrupted by something that is not an
    [Exception]. *)
Definition interrupted : UploadFile :=
  {| read := Raise (Exn false (py "cancelled")) |}.

Definition post_upload (f : UploadFile) : Request :=
  {| method := py "POST"; url_path := py "/predict";
     headers := Sample.with_key (py "s3cret"); file := Some f |}.

End Edge.

(** * Properties *)

(** ** Strings *)

Lemma str_eqb_eq (a b : pystr) : str_eqb a b = true <-> a = b.
Proof.
  revert b; induction a as [|x a IH]; intros [|y b]; simpl; split;
    try congruence; try discriminate.
  - intros H. apply andb_true_iff in H as [Hx Hr].
    apply N.eqb_eq in Hx. apply IH in Hr. congruence.
  - intros H. injection H as -> ->. rewrite N.eqb_refl. simpl. now apply IH.
Qed.

Lemma str_eqb_refl (a : pystr) : str_eqb a a = true.
Proof. now apply str_eqb_eq. Qed.

Lemma opt_str_eqb_eq (a b : option pystr) : opt_str_eqb a b = true <-> a = b.
Proof.
  destruct a as [x|], b as [y|]; simpl; split; try congruence; try discriminate.
  - intros H. apply str_eqb_eq in H. congruence.
  - intros H. injection H as ->. apply str_eqb_refl.
Qed.

Lemma opt_str_eqb_neq (a b : option pystr) : opt_str_eqb a b = false <-> a <> b.
Proof.
  split.
  - intros H E. apply opt_str_eqb_eq in E. congruence.
  - intros H. destruct (opt_str_eqb a b) eqn:E; [|reflexivity].
    apply opt_str_eqb_eq in E. contradiction.
Qed.

Lemma py_not_true (s : pystr) : py_not s = true <-> s = [].
Proof. destruct s; simpl; split; congruence. Qed.

Lemma py_not_opt_true (v : option pystr) :
  py_not_opt v = true <-> v = None \/ v = Some [].
Proof.
  destruct v as [[|c s]|]; simpl; split; intros H; auto; try discriminate.
  - destruct H as [H|H]; discriminate.
Qed.

(** [lstrip] removes a prefix made of whitespace, and what is left does not
    start with whitespace. *)
Lemma lstrip_split (s : pystr) :
  exists l, s = l ++ lstrip s /\ forallb py_isspace l = true.
Proof.
  induction s as [|c s [l [E Hl]]]; simpl.
  - exists []. split; reflexivity.
  - destruct (py_isspace c) eqn:Hc.
    + exists (c :: l). simpl. rewrite Hc, Hl. split; [congruence | reflexivity].
    + exists []. split; reflexivity.
Qed.

Lemma lstrip_head (s : pystr) (c : N) :
  head (lstrip s) = Some c -> py_isspace c = false.
Proof.
  induction s as [|d s IH]; simpl; [discriminate|].
  destruct (py_isspace d) eqn:Hd; [exact IH|].
  simpl. intros H. injection H as <-. exact Hd.
Qed.

Lemma forallb_reverse {A} (f : A -> bool) (l : list A) :
  forallb f (reverse l) = forallb f l.
Proof.
  induction l as [|x l IH]; [reflexivity|].
  rewrite reverse_cons, forallb_app, IH. simpl.
  rewrite andb_true_r. apply andb_comm.
Qed.

Lemma rstrip_split (s : pystr) :
  exists r, s = rstrip s ++ r /\ forallb py_isspace r = true.
Proof.
  unfold rstrip. destruct (lstrip_split (reverse s)) as [l [E Hl]].
  exists (reverse l). split.
  - rewrite <- reverse_app, <- E. symmetry. apply reverse_involutive.
  - now rewrite forallb_reverse.
Qed.

Lemma rstrip_last (s : pystr) (c : N) :
  last (rstrip s) = Some c -> py_isspace c = false.
Proof.
  unfold rstrip. rewrite last_reverse. apply lstrip_head.
Qed.

Lemma rstrip_head (s : pystr) (c : N) :
  head (rstrip s) = Some c -> head s = Some c.
Proof.
  destruct (rstrip_split s) as [r [E _]].
  destruct (rstrip s) as [|d t]; simpl; [discriminate|].
  intros H. rewrite E. exact H.
Qed.

(** What [strip] does: it removes whitespace at both ends and nothing else. *)
Lemma strip_spec (s : pystr) :
  (exists l r, s = l ++ strip s ++ r
               /\ forallb py_isspace l = true /\ forallb py_isspace r = true)
  /\ (forall c, head (strip s) = Some c -> py_isspace c = false)
  /\ (forall c, last (strip s) = Some c -> py_isspace c = false).
Proof.
  unfold strip. split; [|split].
  - destruct (lstrip_split s) as [l [El Hl]].
    destruct (rstrip_split (lstrip s)) as [r [Er Hr]].
    exists l, r. split; [|split]; trivial.
    rewrite <- Er. exact El.
  - intros c H. apply rstrip_head in H. now apply lstrip_head in H.
  - apply rstrip_last.
Qed.

(** ** The guard *)

Section Guard.

Variable cfg : Config.

Lemma guard_cases (call_next : Request -> M Response) (request : Request)
    (s : State) :
  api_key_guard cfg call_next request s =
    if startswith (url_path request) (py "/predict")
       && (py_not_opt (API_KEY cfg)
           || negb (opt_str_eqb
                      (headers_get (headers request) (py "X-API-Key"))
                      (API_KEY cfg)))
    then (Return Unauthorized, s)
    else call_next request s.
Proof.
  unfold api_key_guard.
  destruct (startswith _ _); simpl; [|reflexivity].
  destruct (py_not_opt _ || negb _); reflexivity.
Qed.

(** Unset or empty secret, or a key that is not the secret. *)
Lemma reject_condition (key : option pystr) :
  py_not_opt (API_KEY cfg) || negb (opt_str_eqb key (API_KEY cfg)) = true
  <-> API_KEY cfg = None \/ API_KEY cfg = Some [] \/ key <> API_KEY cfg.
Proof.
  rewrite orb_true_iff, py_not_opt_true, negb_true_iff, opt_str_eqb_neq.
  tauto.
Qed.

Lemma guard_rejects_iff (request : Request) :
  guard_rejects cfg request
  <-> startswith (url_path request) (py "/predict")
      && (py_not_opt (API_KEY cfg)
          || negb (opt_str_eqb
                     (headers_get (headers request) (py "X-API-Key"))
                     (API_KEY cfg))) = true.
Proof.
  split.
  - intros H.
    specialize (H (fun _ => raise FileNotFoundError) initial_state).
    rewrite guard_cases in H.
    destruct (_ && _); [reflexivity | discriminate H].
  - intros H call_next s. rewrite guard_cases. now rewrite H.
Qed.

Lemma guard_forwards_iff (request : Request) :
  guard_forwards cfg request
  <-> startswith (url_path request) (py "/predict")
      && (py_not_opt (API_KEY cfg)
          || negb (opt_str_eqb
                     (headers_get (headers request) (py "X-API-Key"))
                     (API_KEY cfg))) = false.
Proof.
  split.
  - intros H.
    specialize (H (fun _ => raise FileNotFoundError) initial_state).
    rewrite guard_cases in H.
    destruct (_ && _); [discriminate H | reflexivity].
  - intros H call_next s. rewrite guard_cases. now rewrite H.
Qed.

End Guard.

(** C1 (as amended).  On a request whose path starts with [/predict]: when the
    configured secret is unset or empty, or the [X-API-Key] header is missing,
    or its value differs from the secret, the guard answers with status 401
    and the body [{"detail": "Unauthorized"}] and leaves the state as it was,
    so that nothing behind it runs (no upload read, no text extraction, no
    model call); when the header equals a configured secret that is not
    empty, the guard answers exactly as what lies behind it does on the same
    request. *)
Theorem api_key_guard_protected
    (cfg : Config) (call_next : Request -> M Response) (request : Request)
    (s : State) :
  startswith (url_path request) (py "/predict") = true ->
  let key := headers_get (headers request) (py "X-API-Key") in
  (API_KEY cfg = None \/ API_KEY cfg = Some [] \/ key = None
   \/ key <> API_KEY cfg ->
   api_key_guard cfg call_next request s = (Return Unauthorized, s)
   /\ status_code Unauthorized = 401%Z
   /\ content Unauthorized = [(py "detail", JStr (py "Unauthorized"))])
  /\ (forall secret : pystr,
        API_KEY cfg = Some secret -> secret <> [] -> key = Some secret ->
        api_key_guard cfg call_next request s = call_next request s).
Proof.
  intros Hpath key. split.
  - intros Hbad. split; [|split; reflexivity].
    rewrite guard_cases, Hpath. simpl.
    assert (Hc : py_not_opt (API_KEY cfg)
                 || negb (opt_str_eqb key (API_KEY cfg)) = true).
    { apply reject_condition.
      destruct Hbad as [H|[H|[H|H]]]; auto.
      destruct (API_KEY cfg) as [k|] eqn:E; auto.
      right; right. rewrite H. discriminate. }
    fold key. now rewrite Hc.
  - intros secret Hsec Hne Hkey.
    rewrite guard_cases, Hpath. simpl. fold key.
    rewrite Hsec, Hkey. simpl. rewrite str_eqb_refl.
    destruct secret; [contradiction | reflexivity].
Qed.

Lemma api_key_guard_protected_witness :
  app Sample.w_ok Sample.cfg (Sample.post_predict []) initial_state
    = (Return Unauthorized, initial_state)
  /\ app Sample.w_ok Sample.cfg
       (Sample.post_predict (Sample.with_key (py "s3cret"))) initial_state
     = route Sample.w_ok Sample.cfg
         (Sample.post_predict (Sample.with_key (py "s3cret"))) initial_state.
Proof.
  split.
  - apply (api_key_guard_protected Sample.cfg
             (route Sample.w_ok Sample.cfg) (Sample.post_predict [])
             initial_state); [reflexivity|].
    right; right; left. reflexivity.
  - apply (api_key_guard_protected Sample.cfg
             (route Sample.w_ok Sample.cfg)
             (Sample.post_predict (Sample.with_key (py "s3cret")))
             initial_state eq_refl) with (secret := py "s3cret");
      [reflexivity | discriminate | reflexivity].
Defined.

(** C1 as stated fails where the secret is configured as the empty string: a
    request to [/predict] whose [X-API-Key] header is the empty string
    carries a header equal to the secret, and is answered 401 instead of
    being forwarded to the handler. *)
Lemma api_key_guard_empty_secret_refused :
  let cfg := Sample.cfg_of (Some []) in
  let request := Sample.post_predict (Sample.with_key []) in
  headers_get (headers request) (py "X-API-Key") = API_KEY cfg
  /\ app Sample.w_ok cfg request initial_state
     = (Return Unauthorized, initial_state)
  /\ app Sample.w_ok cfg request initial_state
     <> route Sample.w_ok cfg request initial_state.
Proof.
  split; [reflexivity|]. split; [reflexivity|].
  intros H. apply (f_equal fst) in H. vm_compute in H. discriminate H.
Qed.

(** C10.  The guard looks at the prefix of the path only: a request whose path
    does not start with [/predict] is forwarded whatever it carries, one whose
    path starts with it is checked, also when the path is not the registered
    route ([/predictfoo], [/predict/anything]), and whether the guard rejects
    or forwards is the same for two requests that agree on the prefix test
    and on the [X-API-Key] header, whatever their methods, bodies and other
    headers. *)
Theorem api_key_guard_prefix_only (cfg : Config) :
  (forall request,
      startswith (url_path request) (py "/predict") = false ->
      guard_forwards cfg request)
  /\ (forall request,
        startswith (url_path request) (py "/predict") = true ->
        (guard_rejects cfg request
         <-> API_KEY cfg = None \/ API_KEY cfg = Some []
             \/ headers_get (headers request) (py "X-API-Key") <> API_KEY cfg)
        /\ (guard_rejects cfg request \/ guard_forwards cfg request))
  /\ (forall m f,
        guard_rejects cfg
          {| method := m; url_path := py "/predictfoo"; headers := [];
             file := f |}
        /\ guard_rejects cfg
             {| method := m; url_path := py "/predict/anything";
                headers := []; file := f |})
  /\ (forall r r',
        startswith (url_path r) (py "/predict")
          = startswith (url_path r') (py "/predict") ->
        headers_get (headers r) (py "X-API-Key")
          = headers_get (headers r') (py "X-API-Key") ->
        (guard_rejects cfg r <-> guard_rejects cfg r')
        /\ (guard_forwards cfg r <-> guard_forwards cfg r')).
Proof.
  split; [|split; [|split]].
  - intros request Hp. apply guard_forwards_iff. now rewrite Hp.
  - intros request Hp. split.
    + rewrite guard_rejects_iff, Hp. simpl. apply reject_condition.
    + destruct (py_not_opt (API_KEY cfg)
                || negb (opt_str_eqb
                           (headers_get (headers request) (py "X-API-Key"))
                           (API_KEY cfg))) eqn:E.
      * left. apply guard_rejects_iff. now rewrite Hp, E.
      * right. apply guard_forwards_iff. now rewrite Hp, E.
  - intros m f. split; apply guard_rejects_iff; simpl;
      destruct (API_KEY cfg) as [[|c k]|]; reflexivity.
  - intros r r' Hp Hk. split.
    + rewrite !guard_rejects_iff, Hp, Hk. reflexivity.
    + rewrite !guard_forwards_iff, Hp, Hk. reflexivity.
Qed.

Lemma api_key_guard_prefix_only_witness :
  guard_forwards Sample.cfg
    {| method := py "GET"; url_path := py "/"; headers := []; file := None |}
  /\ guard_rejects Sample.cfg
       {| method := py "GET"; url_path := py "/predictfoo";
          headers := [(py "x-api-key", py "wrong")]; file := None |}.
Proof.
  split.
  - apply (proj1 (api_key_guard_prefix_only Sample.cfg)). reflexivity.
  - apply (proj1 (proj2 (api_key_guard_prefix_only Sample.cfg))).
    + reflexivity.
    + right; right. discriminate.
Defined.

(** ** Text extraction *)

Ltac run :=
  unfold extract_text, await_read, chat_completions_create, os_getenv,
    PdfReader, log, lift, raise, modify, get_state, logged;
  unfold mbind, M_bind, mret, M_ret; simpl.

(** The page loop touches no file and logs one call per page it reaches. *)
Lemma extract_pages_frame (pages : list Page) (i : nat) (text : pystr)
    (s : State) :
  files (extract_pages pages i text s).2 = files s
  /\ handles (extract_pages pages i text s).2 = handles s
  /\ exists k, (k <= length pages)%nat
       /\ trace (extract_pages pages i text s).2
          = trace s ++ map EvExtractText (seq i k).
Proof.
  revert i text s. induction pages as [|page rest IH]; intros i text s.
  - simpl. repeat split. exists 0%nat. simpl. split; [lia|].
    now rewrite app_nil_r.
  - simpl. run. destruct page as [t|e]; simpl.
    + destruct (IH (S i) (text ++ or_empty t)
                  {| files := files s; handles := handles s;
                     trace := trace s ++ [EvExtractText i];
                     wire := wire s |})
        as (Hf & Hh & k & Hk & Ht).
      simpl in *. repeat split; trivial.
      exists (S k). split; [lia|]. rewrite Ht. simpl.
      now rewrite <- app_assoc.
    + repeat split. exists 1%nat. split; [lia | reflexivity].
Qed.

(** The page loop sends nothing to the completion service. *)
Lemma extract_pages_wire (pages : list Page) (i : nat) (text : pystr)
    (s : State) :
  wire (extract_pages pages i text s).2 = wire s.
Proof.
  revert i text s. induction pages as [|page rest IH]; intros i text s;
    [reflexivity|].
  simpl. run. destruct page as [t|e]; simpl; [|reflexivity].
  now rewrite IH.
Qed.

(** On pages that all answer, the loop returns the texts joined in order. *)
Lemma extract_pages_ok (texts : list (option pystr)) (i : nat) (text : pystr)
    (s : State) :
  extract_pages (map Return texts) i text s
  = (Return (text ++ concat (map or_empty texts)),
     {| files := files s; handles := handles s;
        trace := trace s ++ map EvExtractText (seq i (length texts));
        wire := wire s |}).
Proof.
  revert i text s. induction texts as [|t texts IH]; intros i text s.
  - simpl. unfold mret, M_ret. rewrite !app_nil_r. now destruct s.
  - simpl. run. rewrite IH. simpl.
    now rewrite <- !app_assoc.
Qed.

(** [extract_text_from_pdf] step by step: the upload is written to a new file
    and flushed, [PdfReader] opens that file, the pages are read, and on the
    way out the handle is closed while the file stays. *)
Lemma extract_text_from_pdf_eq (w : World) (data : bytes) (s : State) :
  let name := fresh (dom (files s)) in
  let opened :=
    {| files := <[name := data]> (files s);
       handles := <[name := []]> (handles s);
       trace := trace s ++ [EvPdfReader name];
       wire := wire s |} in
  let closed (tr : list event) :=
    {| files := <[name := data]> (files s);
       handles := delete name (handles s);
       trace := tr;
       wire := wire s |} in
  extract_text_from_pdf w data s
  = match pdf_reader w data with
    | Return pages =>
        (match (extract_pages pages 0 [] opened).1 with
         | Return text => Return (strip text)
         | Raise e => Raise e
         end,
         closed (trace (extract_pages pages 0 [] opened).2))
    | Raise e => (Raise e, closed (trace opened))
    end.
Proof.
  intros name opened closed.
  unfold extract_text_from_pdf, with_NamedTemporaryFile, try_finally,
    NamedTemporaryFile_enter, tmp_close, tmp_flush, tmp_write.
  run. fold name.
  rewrite !alter_insert_eq, !lookup_insert_eq. simpl.
  rewrite !alter_insert_eq, !lookup_insert_eq, !insert_insert_eq. simpl.
  destruct (pdf_reader w data) as [pages|e]; simpl.
  - destruct (extract_pages_frame pages 0 [] opened) as (Hf & Hh & _).
    pose proof (extract_pages_wire pages 0 [] opened) as Hw.
    unfold opened in *.
    destruct (extract_pages pages 0 [] _) as [o s']. simpl in *.
    rewrite Hf, Hh, Hw. simpl. rewrite lookup_insert_eq. simpl.
    rewrite alter_insert_eq, app_nil_r, insert_insert_eq, delete_insert_eq.
    destruct o; reflexivity.
  - rewrite lookup_insert_eq. simpl.
    rewrite alter_insert_eq, app_nil_r, insert_insert_eq, delete_insert_eq.
    reflexivity.
Qed.

(** The calls [extract_text_from_pdf] makes: one to [PdfReader], then one per
    page reached, in page order. *)
Lemma extract_text_from_pdf_trace (w : World) (data : bytes) (s : State) :
  exists k,
    trace (extract_text_from_pdf w data s).2
    = trace s ++ EvPdfReader (fresh (dom (files s)))
        :: map EvExtractText (seq 0 k).
Proof.
  rewrite extract_text_from_pdf_eq.
  destruct (pdf_reader w data) as [pages|e]; simpl.
  - match goal with
    | |- context [extract_pages pages 0 [] ?o] =>
        destruct (extract_pages_frame pages 0 [] o) as (_ & _ & k & _ & Ht)
    end.
    exists k. rewrite Ht. simpl. now rewrite <- app_assoc.
  - exists 0%nat. reflexivity.
Qed.

(** Extraction sends nothing to the completion service. *)
Lemma wire_extract_text_from_pdf (w : World) (data : bytes) (s : State) :
  wire (extract_text_from_pdf w data s).2 = wire s.
Proof.
  rewrite extract_text_from_pdf_eq.
  destruct (pdf_reader w data); reflexivity.
Qed.

Lemma submitted_extract_text_events (i k : nat) :
  submitted (map EvExtractText (seq i k)) = [].
Proof. revert i; induction k; intros i; simpl; auto. Qed.

Lemma getenvs_extract_text_events (i k : nat) :
  getenvs (map EvExtractText (seq i k)) = [].
Proof. revert i; induction k; intros i; simpl; auto. Qed.

Lemma submitted_extract_text_from_pdf (w : World) (data : bytes) (s : State) :
  submitted (trace (extract_text_from_pdf w data s).2) = submitted (trace s).
Proof.
  destruct (extract_text_from_pdf_trace w data s) as [k ->].
  unfold submitted. rewrite omap_app. simpl.
  fold (submitted (map EvExtractText (seq 0 k))).
  rewrite submitted_extract_text_events. apply app_nil_r.
Qed.

Lemma getenvs_extract_text_from_pdf (w : World) (data : bytes) (s : State) :
  getenvs (trace (extract_text_from_pdf w data s).2) = getenvs (trace s).
Proof.
  destruct (extract_text_from_pdf_trace w data s) as [k ->].
  unfold getenvs. rewrite omap_app. simpl.
  fold (getenvs (map EvExtractText (seq 0 k))).
  rewrite getenvs_extract_text_events. apply app_nil_r.
Qed.

(** Had the handle been made with [delete=True], leaving the block would
    unlink the file: the file system is back to what it was. *)
Lemma with_NamedTemporaryFile_delete (data : bytes) (s : State) :
  files (with_NamedTemporaryFile true
           (fun tmp => _ ← tmp_write tmp data; tmp_flush tmp) s).2
  = files s.
Proof.
  unfold with_NamedTemporaryFile, try_finally, NamedTemporaryFile_enter,
    tmp_close, tmp_flush, tmp_write.
  run.
  rewrite !alter_insert_eq, !lookup_insert_eq. simpl.
  rewrite !alter_insert_eq, !lookup_insert_eq. simpl.
  rewrite !alter_insert_eq, delete_insert_eq.
  apply delete_id, not_elem_of_dom, is_fresh.
Qed.

(** C3 (as amended).  The temporary file is acquired in a scoped manner: it is
    a new file, and when the operation returns, whether with a text or with
    an exception, its handle is closed.  The file itself is not deleted (the
    handle is made with [delete=False] and nothing unlinks it): it stays in
    the file system holding the uploaded bytes, and no other file changes. *)
Theorem extract_text_from_pdf_tempfile (w : World) (data : bytes) (s : State) :
  let name := fresh (dom (files s)) in
  let s' := (extract_text_from_pdf w data s).2 in
  files s !! name = None
  /\ handles s' !! name = None
  /\ files s' !! name = Some data
  /\ (forall other, other <> name -> files s' !! other = files s !! other).
Proof.
  intros name s'. subst s'. rewrite extract_text_from_pdf_eq. fold name.
  split; [apply not_elem_of_dom, is_fresh|].
  destruct (pdf_reader w data) as [pages|e]; simpl;
    (split; [apply lookup_delete_eq|]);
    (split; [apply lookup_insert_eq|]);
    intros other Hne; now apply lookup_insert_ne.
Qed.

(** C3 as stated fails: after the operation has returned a text, and also
    after it has raised on an upload that is not a PDF, the temporary file is
    still in the file system with the uploaded bytes in it. *)
Lemma extract_text_from_pdf_leaves_upload :
  let data := [37; 80; 68; 70] in
  let ok := extract_text_from_pdf Sample.w_ok data initial_state in
  let ko := extract_text_from_pdf Sample.w_corrupt data initial_state in
  files initial_state = ∅
  /\ ok.1 = Return (py "Nota 123 XP")
  /\ files ok.2 !! 0%nat = Some data
  /\ ko.1 = Raise (Exn true (py "EOF marker not found"))
  /\ files ko.2 !! 0%nat = Some data.
Proof. vm_compute. repeat split. Qed.

(** C8.  When [PdfReader] opens the upload and every page answers, the
    operation asks the pages for their text one by one in document order and
    returns the texts joined in that order, a page without text ([None] or
    the empty string) adding nothing, with the whitespace at both ends of the
    joined text removed and nothing else changed; the result may be empty. *)
Theorem extract_text_from_pdf_pages
    (w : World) (data : bytes) (texts : list (option pystr)) (s : State) :
  pdf_reader w data = Return (map Return texts) ->
  let joined := concat (map or_empty texts) in
  let r := extract_text_from_pdf w data s in
  r.1 = Return (strip joined)
  /\ trace r.2
     = trace s ++ EvPdfReader (fresh (dom (files s)))
         :: map EvExtractText (seq 0 (length texts))
  /\ (exists lead tail,
         joined = lead ++ strip joined ++ tail
         /\ forallb py_isspace lead = true
         /\ forallb py_isspace tail = true)
  /\ (forall c, head (strip joined) = Some c -> py_isspace c = false)
  /\ (forall c, last (strip joined) = Some c -> py_isspace c = false).
Proof.
  intros Hpdf joined r. subst r.
  rewrite extract_text_from_pdf_eq, Hpdf, extract_pages_ok. simpl.
  split; [reflexivity|]. split; [now rewrite <- app_assoc|].
  apply strip_spec.
Qed.

Lemma extract_text_from_pdf_pages_witness :
  (extract_text_from_pdf Sample.w_ok [37; 80; 68; 70] initial_state).1
    = Return (py "Nota 123 XP")
  /\ (extract_text_from_pdf Sample.w_blank [37; 80; 68; 70] initial_state).1
     = Return [].
Proof.
  split.
  - exact (proj1 (extract_text_from_pdf_pages Sample.w_ok [37; 80; 68; 70]
                    [Some (py " Nota 123 "); None; Some (py "XP  ")]
                    initial_state eq_refl)).
  - exact (proj1 (extract_text_from_pdf_pages Sample.w_blank [37; 80; 68; 70]
                    [Some (py "  "); None] initial_state eq_refl)).
Defined.

(** ** The endpoint *)

(** An authorized upload reaches [predict], whose [dict] is sent with
    status 200. *)
Lemma app_authorized (w : World) (cfg : Config) (request : Request)
    (f : UploadFile) (s : State) :
  authorized_upload cfg request f ->
  app w cfg request s
  = match predict w cfg f s with
    | (Return d, s') => (Return (JSONResponse d 200), s')
    | (Raise e, s') => (Raise e, s')
    end.
Proof.
  intros (Hpath & Hmeth & Hfile & secret & Hsec & Hne & Hkey).
  unfold app. rewrite guard_cases, Hpath, Hkey, Hsec. simpl.
  rewrite str_eqb_refl. destruct secret as [|c secret]; [contradiction|].
  simpl. unfold route. rewrite Hpath, Hmeth, Hfile, !str_eqb_refl. simpl.
  unfold mbind, M_bind, mret, M_ret.
  destruct (predict w cfg f s) as [[d|e] s']; reflexivity.
Qed.

(** The [try] block when the upload cannot be read. *)
Lemma predict_body_read_raises (w : World) (cfg : Config) (f : UploadFile)
    (e : exn) (s : State) :
  read f = Raise e ->
  predict_body w cfg f s = (Raise e, logged EvRead s).
Proof. intros H. unfold predict_body. run. now rewrite H. Qed.

(** One call of the client: its outcome, and the request on the wire once
    per sending. *)
Lemma client_request_run (w : World) (req : ChatRequest) (retries i : nat)
    (s : State) :
  client_request w req retries i s
  = (create_outcome (service w req) retries i,
     wired (replicate (attempts (service w req) retries i) req) s).
Proof.
  revert i s. induction retries as [|retries IH]; intros i s;
    unfold client_request; fold client_request; simpl;
    unfold mbind, M_bind, modify, mret, M_ret, raise;
    destruct (service w req i); try reflexivity.
  rewrite IH. unfold wired. simpl. now rewrite <- app_assoc.
Qed.

Lemma attempts_bounds (answers : nat -> attempt) (retries i : nat) :
  (1 <= attempts answers retries i <= S retries)%nat.
Proof.
  revert i. induction retries as [|retries IH]; intros i; simpl;
    destruct (answers i); try lia.
  specialize (IH (S i)). lia.
Qed.


(** The [try] block when the upload is read: extraction, then either the
    fixed answer for an empty text or the one call to the completion
    service. *)
Lemma predict_body_eq (w : World) (cfg : Config) (f : UploadFile)
    (data : bytes) (s : State) :
  read f = Return data ->
  predict_body w cfg f s
  = match extract_text_from_pdf w data (logged EvRead s) with
    | (Raise e, s1) => (Raise e, s1)
    | (Return text, s1) =>
        if py_not text then
          (Return [(py "error", JStr (py "Nenhum texto encontrado no PDF."))],
           s1)
        else
          (match completions_create w (completion_request cfg text) with
           | Raise e => Raise e
           | Return completion =>
               match choices completion with
               | c :: _ =>
                   Return [(py "resultado",
                            match choice_content c with
                            | Some r => JStr r
                            | None => JNull
                            end)]
               | [] => Raise IndexError
               end
           end,
           wired (replicate (sendings w (completion_request cfg text))
                    (completion_request cfg text))
             (logged (EvCreate (completion_request cfg text)) s1))
    end.
Proof.
  intros H. unfold predict_body. run. rewrite H. unfold logged.
  destruct (extract_text_from_pdf w data _) as [[text|e] s1]; [|reflexivity].
  destruct (py_not text); [reflexivity|].
  unfold first_choice_content. rewrite client_request_run.
  fold (completion_request cfg text).
  fold (completions_create w (completion_request cfg text)).
  fold (sendings w (completion_request cfg text)).
  destruct (completions_create w _) as [completion|e]; [|reflexivity].
  destruct (choices completion); reflexivity.
Qed.

(** The handler of the [except] clause leaves the state as the block left it. *)
Lemma predict_state (w : World) (cfg : Config) (f : UploadFile) (s : State) :
  (predict w cfg f s).2 = (predict_body w cfg f s).2.
Proof.
  unfold predict, try_except_Exception.
  destruct (predict_body w cfg f s) as [[d|e] s']; [reflexivity|].
  destruct (is_Exception e); reflexivity.
Qed.

Lemma sample_authorized :
  authorized_upload Sample.cfg Sample.authorized_request Sample.upload.
Proof.
  repeat split. exists (py "s3cret"). repeat split. discriminate.
Defined.

(** What an authorized upload whose text is [text], not empty, leads to: one
    logged call, and an answer of status 200 in every case in which the
    service or the indexing of its answer raises an [Exception]. *)
Lemma app_with_text (w : World) (cfg : Config) (request : Request)
    (f : UploadFile) (data : bytes) (text : pystr) (s : State) :
  authorized_upload cfg request f ->
  read f = Return data ->
  (extract_text_from_pdf w data (logged EvRead s)).1 = Return text ->
  text <> [] ->
  (app w cfg request s).2
  = wired (replicate (sendings w (completion_request cfg text))
             (completion_request cfg text))
      (logged (EvCreate (completion_request cfg text))
         (extract_text_from_pdf w data (logged EvRead s)).2)
  /\ forall completion c rest,
       completions_create w (completion_request cfg text) = Return completion ->
       choices completion = c :: rest ->
       (app w cfg request s).1
       = Return (JSONResponse
                   [(py "resultado",
                     match choice_content c with
                     | Some r => JStr r
                     | None => JNull
                     end)] 200).
Proof.
  intros Hauth Hread Htext Hne.
  rewrite (app_authorized w cfg request f s Hauth).
  unfold predict, try_except_Exception.
  rewrite (predict_body_eq w cfg f data s Hread).
  destruct (extract_text_from_pdf w data (logged EvRead s)) as [[t|e] s1];
    simpl in Htext; [|discriminate].
  injection Htext as ->.
  destruct text as [|c0 text]; [contradiction|]. simpl py_not. cbv iota.
  split.
  - destruct (completions_create w _) as [completion|e].
    + destruct (choices completion); [|reflexivity].
      reflexivity.
    + destruct (is_Exception e); reflexivity.
  - intros completion c rest Hc Hch. rewrite Hc, Hch. reflexivity.
Qed.

(** C2.  When an authorized [POST /predict] uploads a document whose
    extracted text is empty after trimming, the answer is exactly
    [{"error": "Nenhum texto encontrado no PDF."}], sent with status 200, and
    no request goes to the completion service. *)
Theorem predict_no_text
    (w : World) (cfg : Config) (request : Request) (f : UploadFile)
    (data : bytes) (s : State) :
  authorized_upload cfg request f ->
  read f = Return data ->
  (extract_text_from_pdf w data (logged EvRead s)).1 = Return [] ->
  (app w cfg request s).1
  = Return (JSONResponse
              [(py "error", JStr (py "Nenhum texto encontrado no PDF."))] 200)
  /\ submitted (trace (app w cfg request s).2) = submitted (trace s).
Proof.
  intros Hauth Hread Htext.
  rewrite (app_authorized w cfg request f s Hauth).
  unfold predict, try_except_Exception.
  rewrite (predict_body_eq w cfg f data s Hread).
  pose proof (submitted_extract_text_from_pdf w data (logged EvRead s)) as Hs.
  destruct (extract_text_from_pdf w data (logged EvRead s)) as [[t|e] s1];
    simpl in Htext; [|discriminate].
  injection Htext as ->. simpl. split; [reflexivity|].
  simpl in Hs. rewrite Hs. unfold submitted. rewrite omap_app. simpl.
  apply app_nil_r.
Qed.

Lemma predict_no_text_witness :
  (app Sample.w_blank Sample.cfg Sample.authorized_request initial_state).1
  = Return (JSONResponse
              [(py "error", JStr (py "Nenhum texto encontrado no PDF."))] 200)
  /\ submitted
       (trace (app Sample.w_blank Sample.cfg Sample.authorized_request
                 initial_state).2)
     = [].
Proof.
  exact (predict_no_text Sample.w_blank Sample.cfg Sample.authorized_request
           Sample.upload [37; 80; 68; 70] initial_state
           sample_authorized eq_refl eq_refl).
Defined.




(** C4.  The user prompt sent to the completion service is the fixed template
    around the first 6000 characters of the extracted text: a text of at most
    6000 characters is included whole, of a longer one exactly 6000
    characters are included, and what comes after them has no part in the
    prompt, since any text with the same first 6000 characters gives the same
    prompt. *)
Theorem prompt_holds_first_6000
    (w : World) (cfg : Config) (request : Request) (f : UploadFile)
    (data : bytes) (text : pystr) (s : State) :
  authorized_upload cfg request f ->
  read f = Return data ->
  (extract_text_from_pdf w data (logged EvRead s)).1 = Return text ->
  text <> [] ->
  exists (req : ChatRequest) (sys usr : ChatMessage),
    submitted (trace (app w cfg request s).2) = submitted (trace s) ++ [req]
    /\ messages req = [sys; usr]
    /\ message_content usr = prompt_head ++ take 6000%nat text ++ prompt_tail
    /\ ((length text <= 6000)%nat ->
        message_content usr = prompt_head ++ text ++ prompt_tail)
    /\ ((6000 < length text)%nat ->
        length (message_content usr)
        = (length prompt_head + 6000 + length prompt_tail)%nat)
    /\ (forall text' : pystr,
          take 6000%nat text' = take 6000%nat text ->
          prompt_of text' = message_content usr).
Proof.
  intros Hauth Hread Htext Hne.
  exists (completion_request cfg text).
  exists {| role := py "system"; message_content := system_content |}.
  exists {| role := py "user"; message_content := prompt_of text |}.
  split; [|split; [reflexivity|split; [reflexivity|split; [|split]]]].
  - rewrite (proj1 (app_with_text w cfg request f data text s
                      Hauth Hread Htext Hne)).
    simpl. unfold submitted at 1. rewrite omap_app. simpl.
    fold (submitted
            (trace (extract_text_from_pdf w data (logged EvRead s)).2)).
    rewrite submitted_extract_text_from_pdf. simpl.
    unfold submitted at 1. rewrite omap_app. simpl. now rewrite app_nil_r.
  - intros Hlen. cbn [message_content]. unfold prompt_of.
    now rewrite take_ge.
  - intros Hlen. cbn [message_content]. unfold prompt_of.
    rewrite !length_app, length_take. lia.
  - intros text' Heq. cbn [message_content]. unfold prompt_of.
    now rewrite Heq.
Qed.

Lemma prompt_holds_first_6000_witness :
  exists (req : ChatRequest) (sys usr : ChatMessage),
    submitted
      (trace (app Sample.w_long Sample.cfg Sample.authorized_request
                initial_state).2)
    = [req]
    /\ messages req = [sys; usr]
    /\ message_content usr
       = prompt_head ++ replicate 6000%nat 65 ++ prompt_tail.
Proof.
  destruct (prompt_holds_first_6000 Sample.w_long Sample.cfg
              Sample.authorized_request Sample.upload [37; 80; 68; 70]
              Sample.long_text initial_state
              sample_authorized eq_refl
              ltac:(vm_compute; reflexivity) ltac:(discriminate))
    as (req & sys & usr & Hsub & Hmsg & Hcontent & _).
  exists req, sys, usr. split; [exact Hsub|]. split; [exact Hmsg|].
  rewrite Hcontent. vm_compute. reflexivity.
Defined.

(** C6.  When the model call returns a completion with a first choice, the
    answer of [POST /predict] is exactly [{"resultado": s}], sent with status
    200, where [s] is the message text of that choice as the service gave it
    ([null] when the choice has no text): whatever the text is, it is
    returned as it is, and no second call is made. *)
Theorem predict_returns_completion_text
    (w : World) (cfg : Config) (request : Request) (f : UploadFile)
    (data : bytes) (text : pystr) (s : State)
    (completion : ChatCompletion) (c : Choice) (rest : list Choice) :
  authorized_upload cfg request f ->
  read f = Return data ->
  (extract_text_from_pdf w data (logged EvRead s)).1 = Return text ->
  text <> [] ->
  completions_create w (completion_request cfg text) = Return completion ->
  choices completion = c :: rest ->
  (app w cfg request s).1
  = Return (JSONResponse
              [(py "resultado",
                match choice_content c with
                | Some r => JStr r
                | None => JNull
                end)] 200)
  /\ (forall r, choice_content c = Some r ->
        (app w cfg request s).1
        = Return (JSONResponse [(py "resultado", JStr r)] 200))
  /\ submitted (trace (app w cfg request s).2)
     = submitted (trace s) ++ [completion_request cfg text].
Proof.
  intros Hauth Hread Htext Hne Hc Hch.
  destruct (app_with_text w cfg request f data text s Hauth Hread Htext Hne)
    as [Hstate Hans].
  specialize (Hans completion c rest Hc Hch).
  split; [exact Hans|]. split.
  - intros r Hr. rewrite Hans, Hr. reflexivity.
  - rewrite Hstate. simpl. unfold submitted at 1. rewrite omap_app. simpl.
    fold (submitted
            (trace (extract_text_from_pdf w data (logged EvRead s)).2)).
    rewrite submitted_extract_text_from_pdf. simpl.
    unfold submitted at 1. rewrite omap_app. simpl. now rewrite app_nil_r.
Qed.

Lemma predict_returns_completion_text_witness :
  (app Sample.w_ok Sample.cfg Sample.authorized_request initial_state).1
  = Return (JSONResponse [(py "resultado", JStr (py "nao e json"))] 200).
Proof.
  exact (proj1 (predict_returns_completion_text Sample.w_ok Sample.cfg
                  Sample.authorized_request Sample.upload [37; 80; 68; 70]
                  (py "Nota 123 XP") initial_state Sample.answer
                  {| choice_content := Some (py "nao e json") |} []
                  sample_authorized eq_refl eq_refl ltac:(discriminate)
                  eq_refl eq_refl)).
Defined.

(** C7 (as amended).  Whatever instance of [Exception] the [try] block of
    [predict] raises on an authorized upload (the upload cannot be read,
    [PdfReader] or a page raises, the model call raises, the completion has
    no choice), the handler catches it and returns [{"error": str(e)}], which
    is sent with status 200 as a success is; no instance of [Exception]
    leaves the handler.  What is raised in the block and is not an instance
    of [Exception] is not caught: it leaves the handler as it was raised. *)
Theorem predict_catches_exceptions
    (w : World) (cfg : Config) (request : Request) (f : UploadFile)
    (s : State) :
  authorized_upload cfg request f ->
  (forall e s',
      predict_body w cfg f s = (Raise e, s') ->
      is_Exception e = true ->
      predict w cfg f s = (Return [(py "error", JStr (str e))], s')
      /\ app w cfg request s
         = (Return (JSONResponse [(py "error", JStr (str e))] 200), s'))
  /\ (forall d s',
        predict_body w cfg f s = (Return d, s') ->
        app w cfg request s = (Return (JSONResponse d 200), s'))
  /\ (forall e s',
        predict w cfg f s = (Raise e, s') ->
        is_Exception e = false /\ predict_body w cfg f s = (Raise e, s'))
  /\ (forall e s',
        predict_body w cfg f s = (Raise e, s') ->
        is_Exception e = false ->
        predict w cfg f s = (Raise e, s')).
Proof.
  intros Hauth. rewrite (app_authorized w cfg request f s Hauth).
  unfold predict, try_except_Exception.
  destruct (predict_body w cfg f s) as [[d|e] s1].
  - split; [|split; [|split]]; intros x s' H; try discriminate H.
    now injection H as <- <-.
  - destruct (is_Exception e) eqn:He; (split; [|split; [|split]]);
      intros x s' H; try discriminate H; injection H as <- <-.
    + intros _. split; reflexivity.
    + intros He'. congruence.
    + intros He'. congruence.
    + split; [exact He | reflexivity].
    + intros _. reflexivity.
Qed.

(** Where the exceptions of the [try] block come from. *)
Lemma predict_body_pdf_raises (w : World) (cfg : Config) (f : UploadFile)
    (data : bytes) (e : exn) (s : State) :
  read f = Return data ->
  pdf_reader w data = Raise e ->
  (predict_body w cfg f s).1 = Raise e.
Proof.
  intros Hread Hpdf. rewrite (predict_body_eq w cfg f data s Hread).
  rewrite extract_text_from_pdf_eq, Hpdf. reflexivity.
Qed.

Lemma predict_body_create_raises (w : World) (cfg : Config) (f : UploadFile)
    (data : bytes) (text : pystr) (e : exn) (s : State) :
  read f = Return data ->
  (extract_text_from_pdf w data (logged EvRead s)).1 = Return text ->
  text <> [] ->
  completions_create w (completion_request cfg text) = Raise e ->
  (predict_body w cfg f s).1 = Raise e.
Proof.
  intros Hread Htext Hne Hc. rewrite (predict_body_eq w cfg f data s Hread).
  destruct (extract_text_from_pdf w data (logged EvRead s)) as [[t|e'] s1];
    simpl in Htext; [|discriminate].
  injection Htext as ->. destruct text; [contradiction|]. simpl.
  now rewrite Hc.
Qed.

Lemma predict_catches_exceptions_witness :
  exists s' : State,
    app Sample.w_corrupt Sample.cfg Sample.authorized_request initial_state
    = (Return (JSONResponse
                 [(py "error", JStr (py "EOF marker not found"))] 200), s').
Proof.
  eexists.
  apply (proj1 (predict_catches_exceptions Sample.w_corrupt Sample.cfg
                  Sample.authorized_request Sample.upload initial_state
                  sample_authorized)
           (Exn true (py "EOF marker not found"))).
  - vm_compute. reflexivity.
  - reflexivity.
Defined.

(** C7 as stated fails on what is not an instance of [Exception]: when
    reading the upload is cut short by such an object, [except Exception]
    does not catch it and it leaves the handler, no answer being built. *)
Lemma predict_lets_non_exception_through :
  read Edge.interrupted = Raise (Exn false (py "cancelled"))
  /\ predict Sample.w_ok Sample.cfg Edge.interrupted initial_state
     = (Raise (Exn false (py "cancelled")), logged EvRead initial_state).
Proof. split; reflexivity. Qed.

(** ** Configuration *)

Lemma getenvs_snoc_other (tr : list event) (ev : event) :
  match ev with EvGetenv _ => False | _ => True end ->
  getenvs (tr ++ [ev]) = getenvs tr.
Proof.
  intros H. unfold getenvs. rewrite omap_app.
  destruct ev; try contradiction; simpl; apply app_nil_r.
Qed.

(** Serving a request reads no environment variable. *)
Lemma getenvs_app (w : World) (cfg : Config) (request : Request) (s : State) :
  getenvs (trace (app w cfg request s).2) = getenvs (trace s).
Proof.
  unfold app. rewrite guard_cases.
  destruct (_ && _); [reflexivity|].
  unfold route.
  destruct (str_eqb (url_path request) (py "/predict")
            && str_eqb (method request) (py "POST")).
  - destruct (file request) as [f|]; [|reflexivity].
    unfold mbind, M_bind, mret, M_ret.
    pose proof (predict_state w cfg f s) as Hst.
    destruct (predict w cfg f s) as [[d|e] s1]; simpl in *; subst s1.
    all: destruct (read f) as [data|e0] eqn:Hread.
    all: try (rewrite (predict_body_read_raises w cfg f e0 s Hread);
              simpl; now apply getenvs_snoc_other).
    all: rewrite (predict_body_eq w cfg f data s Hread).
    all: pose proof (getenvs_extract_text_from_pdf w data (logged EvRead s))
           as Hg.
    all: destruct (extract_text_from_pdf w data (logged EvRead s))
           as [[text|e1] s1]; simpl in Hg.
    all: try destruct (py_not text); simpl.
    all: try rewrite getenvs_snoc_other by exact I.
    all: rewrite Hg; now apply getenvs_snoc_other.
  - destruct (str_eqb (url_path request) (py "/")
              && str_eqb (method request) (py "GET")); reflexivity.
Qed.

(** C9.  The module body reads the two environment variables once each, and
    serving a request reads none.  Without [OPENAI_API_KEY] the start raises
    [RuntimeError] and no request is served.  Without [API_KEY] the start
    succeeds, given the credential, and then every request whose path starts
    with [/predict] is answered 401. *)
Theorem module_init_configuration (w : World) (s : State) :
  let s' := logged (EvGetenv "API_KEY") (logged (EvGetenv "OPENAI_API_KEY") s) in
  let missing :=
    RuntimeError
      (py "❌ Variável de ambiente OPENAI_API_KEY não configurada.") in
  (environ w !! "OPENAI_API_KEY"%string = None ->
   module_init w s = (Raise missing, s')
   /\ forall request, serve w request s = (Raise missing, s'))
  /\ (forall credential : pystr,
        environ w !! "OPENAI_API_KEY"%string = Some credential ->
        credential <> [] ->
        environ w !! "API_KEY"%string = None ->
        exists cfg : Config,
          module_init w s = (Return cfg, s')
          /\ API_KEY cfg = None
          /\ forall request s2,
               startswith (url_path request) (py "/predict") = true ->
               app w cfg request s2 = (Return Unauthorized, s2))
  /\ getenvs (trace (module_init w s).2)
     = getenvs (trace s) ++ ["OPENAI_API_KEY"%string; "API_KEY"%string]
  /\ (forall cfg request s2,
        getenvs (trace (app w cfg request s2).2) = getenvs (trace s2)).
Proof.
  intros s' missing. split; [|split; [|split]].
  - intros Henv.
    assert (Hinit : module_init w s = (Raise missing, s')).
    { unfold module_init. run. now rewrite Henv. }
    split; [exact Hinit|].
    intros request. unfold serve, mbind, M_bind. now rewrite Hinit.
  - intros credential Hcred Hne Hsecret.
    eexists. split; [|split].
    + unfold module_init. run. rewrite Hcred, Hsecret.
      destruct credential; [contradiction|]. reflexivity.
    + reflexivity.
    + intros request s2 Hpath. unfold app.
      rewrite guard_cases, Hpath. reflexivity.
  - unfold module_init. run.
    destruct (py_not_opt (environ w !! "OPENAI_API_KEY"%string)); simpl;
      unfold getenvs; rewrite !omap_app; simpl; now rewrite <- app_assoc.
  - intros cfg request s2. apply getenvs_app.
Qed.

Lemma module_init_configuration_witness :
  (forall request,
      (serve (Sample.world (Return []) (Return Sample.answer)
                Sample.env_no_credential) request initial_state).1
      = Raise (RuntimeError
                 (py "❌ Variável de ambiente OPENAI_API_KEY não configurada.")))
  /\ exists cfg : Config,
       (module_init (Sample.world (Return []) (Return Sample.answer)
                       Sample.env_no_secret) initial_state).1
       = Return cfg
       /\ API_KEY cfg = None.
Proof.
  split.
  - intros request.
    rewrite (proj2 (proj1 (module_init_configuration
                             (Sample.world (Return []) (Return Sample.answer)
                                Sample.env_no_credential) initial_state)
                      eq_refl) request).
    reflexivity.
  - destruct (proj1 (proj2 (module_init_configuration
                              (Sample.world (Return [])
                                 (Return Sample.answer) Sample.env_no_secret)
                              initial_state))
                (py "sk-test") eq_refl ltac:(discriminate) eq_refl)
      as (cfg & Hinit & Hsecret & _).
    exists cfg. split; [now rewrite Hinit | exact Hsecret].
Defined.

(** * Further properties of the code *)

(** ** The prompt as a function of the text *)

(** The prompt is 570 characters of template plus at most 6000 of text, so
    never longer than 6570, and two texts give the same prompt exactly when
    their first 6000 characters are the same. *)
Theorem prompt_of_length_and_content (text text' : pystr) :
  length (prompt_of text) = (570 + min 6000 (length text))%nat
  /\ (length (prompt_of text) <= 6570)%nat
  /\ (prompt_of text = prompt_of text'
      <-> take 6000%nat text = take 6000%nat text').
Proof.
  assert (Hlen : forall t,
             length (prompt_of t) = (570 + min 6000 (length t))%nat).
  { intros t. unfold prompt_of. rewrite !length_app, length_take.
    change (length prompt_head) with 521%nat.
    change (length prompt_tail) with 49%nat. lia. }
  split; [apply Hlen|]. split.
  { rewrite Hlen. transitivity (570 + 6000)%nat.
    - apply Nat.add_le_mono_l, Nat.le_min_l.
    - apply Nat.leb_le. vm_compute. reflexivity. }
  split.
  - unfold prompt_of. intros H. apply app_inv_head in H.
    now apply app_inv_tail in H.
  - unfold prompt_of. now intros ->.
Qed.

(** ** Extraction: failures and the empty text *)

Lemma extract_pages_app (texts : list (option pystr)) (rest : list Page)
    (i : nat) (text : pystr) (s : State) :
  extract_pages (map Return texts ++ rest) i text s
  = extract_pages rest (i + length texts)
      (text ++ concat (map or_empty texts))
      {| files := files s; handles := handles s;
         trace := trace s ++ map EvExtractText (seq i (length texts));
         wire := wire s |}.
Proof.
  revert i text s. induction texts as [|t texts IH]; intros i text s.
  - simpl. rewrite Nat.add_0_r, !app_nil_r. now destruct s.
  - simpl. run. rewrite IH. simpl.
    rewrite <- !app_assoc. simpl. now rewrite Nat.add_succ_r.
Qed.

(** When [PdfReader] rejects the upload, the operation raises what
    [PdfReader] raised and asks no page for its text. *)
Theorem extract_text_from_pdf_reader_raises
    (w : World) (data : bytes) (e : exn) (s : State) :
  pdf_reader w data = Raise e ->
  (extract_text_from_pdf w data s).1 = Raise e
  /\ trace (extract_text_from_pdf w data s).2
     = trace s ++ [EvPdfReader (fresh (dom (files s)))].
Proof.
  intros Hpdf. rewrite extract_text_from_pdf_eq, Hpdf. split; reflexivity.
Qed.

Lemma extract_text_from_pdf_reader_raises_witness :
  (extract_text_from_pdf Sample.w_corrupt [37; 80; 68; 70] initial_state).1
  = Raise (Exn true (py "EOF marker not found")).
Proof.
  exact (proj1 (extract_text_from_pdf_reader_raises Sample.w_corrupt
                  [37; 80; 68; 70] (Exn true (py "EOF marker not found"))
                  initial_state eq_refl)).
Defined.

(** When a page raises, the operation raises the same exception: the text of
    the pages before it is dropped and the pages after it are never asked. *)
Theorem extract_text_from_pdf_page_raises
    (w : World) (data : bytes) (texts : list (option pystr)) (e : exn)
    (rest : list Page) (s : State) :
  pdf_reader w data = Return (map Return texts ++ Raise e :: rest) ->
  (extract_text_from_pdf w data s).1 = Raise e
  /\ trace (extract_text_from_pdf w data s).2
     = trace s ++ EvPdfReader (fresh (dom (files s)))
         :: map EvExtractText (seq 0 (S (length texts))).
Proof.
  intros Hpdf. rewrite extract_text_from_pdf_eq, Hpdf, extract_pages_app.
  simpl extract_pages. run. split; [reflexivity|].
  rewrite <- !app_assoc. simpl. f_equal. f_equal.
  change (EvExtractText 0 :: map EvExtractText (seq 1 (length texts)))
    with (map EvExtractText (seq 0 (S (length texts)))).
  rewrite seq_S, map_app. reflexivity.
Qed.

Lemma extract_text_from_pdf_page_raises_witness :
  (extract_text_from_pdf Edge.w_bad_page [37; 80; 68; 70] initial_state).1
  = Raise (Exn true (py "bad page"))
  /\ trace (extract_text_from_pdf Edge.w_bad_page [37; 80; 68; 70]
              initial_state).2
     = [EvPdfReader 0; EvExtractText 0; EvExtractText 1].
Proof.
  exact (extract_text_from_pdf_page_raises Edge.w_bad_page [37; 80; 68; 70]
           [Some (py "a")] (Exn true (py "bad page"))
           [Return (Some (py "b"))] initial_state eq_refl).
Defined.

Lemma lstrip_nil_iff (s : pystr) :
  lstrip s = [] <-> forallb py_isspace s = true.
Proof.
  induction s as [|c s IH]; simpl; [tauto|].
  destruct (py_isspace c); simpl; [exact IH|].
  split; discriminate.
Qed.

Lemma strip_nil_iff (s : pystr) :
  strip s = [] <-> forallb py_isspace s = true.
Proof.
  unfold strip, rstrip. split.
  - intros H. apply (f_equal reverse) in H.
    rewrite reverse_involutive, reverse_nil in H.
    apply lstrip_nil_iff in H. rewrite forallb_reverse in H.
    destruct (lstrip_split s) as [l [E Hl]].
    destruct (lstrip s) as [|c r] eqn:Els.
    + rewrite E, app_nil_r. exact Hl.
    + assert (Hc : py_isspace c = false)
        by (apply (lstrip_head s); now rewrite Els).
      simpl in H. rewrite Hc in H. discriminate H.
  - intros H. apply lstrip_nil_iff in H. rewrite H. reflexivity.
Qed.

(** On a document whose pages all answer, the extracted text is empty, which
    is what makes [predict] answer that no text was found, exactly when the
    joined page texts hold nothing but whitespace. *)
Theorem extract_text_from_pdf_empty_iff
    (w : World) (data : bytes) (texts : list (option pystr)) (s : State) :
  pdf_reader w data = Return (map Return texts) ->
  (extract_text_from_pdf w data s).1 = Return []
  <-> forallb py_isspace (concat (map or_empty texts)) = true.
Proof.
  intros Hpdf. rewrite extract_text_from_pdf_eq, Hpdf, extract_pages_ok.
  simpl. rewrite <- strip_nil_iff. split.
  - intros H. now injection H.
  - now intros ->.
Qed.

Lemma extract_text_from_pdf_empty_iff_witness :
  (extract_text_from_pdf Sample.w_blank [37; 80; 68; 70] initial_state).1
  = Return [].
Proof.
  apply (extract_text_from_pdf_empty_iff Sample.w_blank [37; 80; 68; 70]
           [Some (py "  "); None] initial_state eq_refl).
  reflexivity.
Defined.

(** ** Extraction: the file system *)

Lemma extract_text_from_pdf_files (w : World) (data : bytes) (s : State) :
  files (extract_text_from_pdf w data s).2
  = <[fresh (dom (files s)) := data]> (files s).
Proof.
  rewrite extract_text_from_pdf_eq.
  destruct (pdf_reader w data); reflexivity.
Qed.

Lemma extract_text_from_pdf_handles (w : World) (data : bytes) (s : State) :
  handles (extract_text_from_pdf w data s).2
  = delete (fresh (dom (files s))) (handles s).
Proof.
  rewrite extract_text_from_pdf_eq.
  destruct (pdf_reader w data); reflexivity.
Qed.

(** Two extractions in a row, whatever their outcomes, use two different
    files, and afterwards both files are there, each with its own upload: the
    file system has grown by two files. *)
Theorem extract_text_from_pdf_twice
    (w w' : World) (d1 d2 : bytes) (s : State) :
  let s1 := (extract_text_from_pdf w d1 s).2 in
  let s2 := (extract_text_from_pdf w' d2 s1).2 in
  let n1 := fresh (dom (files s)) in
  let n2 := fresh (dom (files s1)) in
  n1 <> n2
  /\ files s2 !! n1 = Some d1
  /\ files s2 !! n2 = Some d2
  /\ size (files s2) = S (S (size (files s))).
Proof.
  intros s1 s2 n1 n2.
  assert (H1 : files s1 = <[n1 := d1]> (files s))
    by apply extract_text_from_pdf_files.
  assert (H2 : files s2 = <[n2 := d2]> (files s1))
    by apply extract_text_from_pdf_files.
  assert (Hn1 : files s !! n1 = None) by apply not_elem_of_dom, is_fresh.
  assert (Hn2 : files s1 !! n2 = None) by apply not_elem_of_dom, is_fresh.
  assert (Hne : n1 <> n2).
  { intros E. rewrite H1, <- E, lookup_insert_eq in Hn2. discriminate Hn2. }
  split; [exact Hne|]. split; [|split].
  - rewrite H2, lookup_insert_ne, H1 by auto. apply lookup_insert_eq.
  - rewrite H2. apply lookup_insert_eq.
  - rewrite H2, map_size_insert_None by exact Hn2.
    rewrite H1, map_size_insert_None by exact Hn1. reflexivity.
Qed.

(** Extraction leaves no handle open: when every open handle belongs to a
    file, as in any state the program itself produced, the open handles after
    the operation are those from before, whether it returned or raised, and
    every open handle still belongs to a file. *)
Theorem extract_text_from_pdf_handles_restored
    (w : World) (data : bytes) (s : State) :
  dom (handles s) ⊆ dom (files s) ->
  handles (extract_text_from_pdf w data s).2 = handles s
  /\ dom (handles (extract_text_from_pdf w data s).2)
     ⊆ dom (files (extract_text_from_pdf w data s).2).
Proof.
  intros Hsub.
  assert (Hfresh : fresh (dom (files s)) ∉ dom (handles s)).
  { intros Hin. apply (is_fresh (dom (files s))). now apply Hsub. }
  rewrite extract_text_from_pdf_handles, extract_text_from_pdf_files.
  rewrite delete_id by now apply not_elem_of_dom.
  split; [reflexivity|]. rewrite dom_insert_L. set_solver.
Qed.

Lemma extract_text_from_pdf_handles_restored_witness :
  handles (extract_text_from_pdf Sample.w_corrupt [37; 80; 68; 70]
             initial_state).2
  = ∅.
Proof.
  apply (extract_text_from_pdf_handles_restored Sample.w_corrupt
           [37; 80; 68; 70] initial_state).
  simpl. set_solver.
Defined.

(** ** The endpoint: every way a request can end *)

(** The answer to an authorized upload whose text is [text], not empty, by
    what the service does. *)
Lemma app_with_text_result (w : World) (cfg : Config) (request : Request)
    (f : UploadFile) (data : bytes) (text : pystr) (s : State) :
  authorized_upload cfg request f ->
  read f = Return data ->
  (extract_text_from_pdf w data (logged EvRead s)).1 = Return text ->
  text <> [] ->
  (app w cfg request s).1
  = match completions_create w (completion_request cfg text) with
    | Raise e =>
        if is_Exception e
        then Return (JSONResponse [(py "error", JStr (str e))] 200)
        else Raise e
    | Return completion =>
        match choices completion with
        | c :: _ =>
            Return (JSONResponse
                      [(py "resultado",
                        match choice_content c with
                        | Some r => JStr r
                        | None => JNull
                        end)] 200)
        | [] =>
            Return (JSONResponse [(py "error", JStr (str IndexError))] 200)
        end
    end.
Proof.
  intros Hauth Hread Htext Hne.
  rewrite (app_authorized w cfg request f s Hauth).
  unfold predict, try_except_Exception.
  rewrite (predict_body_eq w cfg f data s Hread).
  destruct (extract_text_from_pdf w data (logged EvRead s)) as [[t|e] s1];
    simpl in Htext; [|discriminate].
  injection Htext as ->.
  destruct text as [|c0 text]; [contradiction|]. simpl py_not. cbv iota.
  destruct (completions_create w _) as [completion|e].
  - destruct (choices completion); reflexivity.
  - destruct (is_Exception e); reflexivity.
Qed.

Lemma submitted_after_call (w : World) (cfg : Config) (data : bytes)
    (text : pystr) (s : State) :
  submitted
    (trace (wired (replicate (sendings w (completion_request cfg text))
                     (completion_request cfg text))
              (logged (EvCreate (completion_request cfg text))
                 (extract_text_from_pdf w data (logged EvRead s)).2)))
  = submitted (trace s) ++ [completion_request cfg text].
Proof.
  simpl. unfold submitted at 1. rewrite omap_app. simpl.
  fold (submitted (trace (extract_text_from_pdf w data (logged EvRead s)).2)).
  rewrite submitted_extract_text_from_pdf. simpl.
  unfold submitted at 1. rewrite omap_app. simpl. now rewrite app_nil_r.
Qed.

(** A completion without choices makes [choices[0]] fail: the answer is
    [{"error": "list index out of range"}] with status 200, and the one call
    made is not repeated. *)
Theorem predict_no_choices
    (w : World) (cfg : Config) (request : Request) (f : UploadFile)
    (data : bytes) (text : pystr) (s : State) (completion : ChatCompletion) :
  authorized_upload cfg request f ->
  read f = Return data ->
  (extract_text_from_pdf w data (logged EvRead s)).1 = Return text ->
  text <> [] ->
  completions_create w (completion_request cfg text) = Return completion ->
  choices completion = [] ->
  (app w cfg request s).1
  = Return (JSONResponse
              [(py "error", JStr (py "list index out of range"))] 200)
  /\ submitted (trace (app w cfg request s).2)
     = submitted (trace s) ++ [completion_request cfg text].
Proof.
  intros Hauth Hread Htext Hne Hc Hch. split.
  - rewrite (app_with_text_result w cfg request f data text s
               Hauth Hread Htext Hne), Hc, Hch.
    reflexivity.
  - rewrite (proj1 (app_with_text w cfg request f data text s
                      Hauth Hread Htext Hne)).
    apply submitted_after_call.
Qed.

Lemma predict_no_choices_witness :
  (app Edge.w_no_choices Sample.cfg Sample.authorized_request
     initial_state).1
  = Return (JSONResponse
              [(py "error", JStr (py "list index out of range"))] 200).
Proof.
  exact (proj1 (predict_no_choices Edge.w_no_choices Sample.cfg
                  Sample.authorized_request Sample.upload [37; 80; 68; 70]
                  (py "Nota 123 XP") initial_state {| choices := [] |}
                  sample_authorized eq_refl eq_refl ltac:(discriminate)
                  eq_refl eq_refl)).
Defined.

(** When [client.chat.completions.create] raises an [Exception], the answer
    is [{"error": str(e)}] with status 200.  The handler has made that one
    call and makes no other; the request itself reached the service between
    one and three times, the client sending it again after a failure, and
    three times when all three sendings failed, the exception raised being
    that of the last one. *)
Theorem predict_service_raises
    (w : World) (cfg : Config) (request : Request) (f : UploadFile)
    (data : bytes) (text : pystr) (s : State) (e : exn) :
  authorized_upload cfg request f ->
  read f = Return data ->
  (extract_text_from_pdf w data (logged EvRead s)).1 = Return text ->
  text <> [] ->
  completions_create w (completion_request cfg text) = Raise e ->
  is_Exception e = true ->
  (app w cfg request s).1
  = Return (JSONResponse [(py "error", JStr (str e))] 200)
  /\ submitted (trace (app w cfg request s).2)
     = submitted (trace s) ++ [completion_request cfg text]
  /\ (exists n : nat,
         (1 <= n <= 3)%nat
         /\ wire (app w cfg request s).2
            = wire s ++ replicate n (completion_request cfg text))
  /\ (forall e0 e1 e2,
         service w (completion_request cfg text) 0%nat = Failed e0 ->
         service w (completion_request cfg text) 1%nat = Failed e1 ->
         service w (completion_request cfg text) 2%nat = Failed e2 ->
         e = e2
         /\ wire (app w cfg request s).2
            = wire s ++ replicate 3 (completion_request cfg text)).
Proof.
  intros Hauth Hread Htext Hne Hc He.
  pose proof (proj1 (app_with_text w cfg request f data text s
                       Hauth Hread Htext Hne)) as Hstate.
  assert (Hwire : wire (app w cfg request s).2
                  = wire s ++ replicate
                                (sendings w (completion_request cfg text))
                                (completion_request cfg text)).
  { rewrite Hstate. simpl. now rewrite wire_extract_text_from_pdf. }
  split; [|split; [|split]].
  - rewrite (app_with_text_result w cfg request f data text s
               Hauth Hread Htext Hne), Hc, He.
    reflexivity.
  - rewrite Hstate. apply submitted_after_call.
  - exists (sendings w (completion_request cfg text)).
    split; [apply attempts_bounds | exact Hwire].
  - intros e0 e1 e2 H0 H1 H2. rewrite Hwire.
    unfold completions_create, create_outcome, DEFAULT_MAX_RETRIES in Hc.
    unfold sendings, attempts, DEFAULT_MAX_RETRIES.
    rewrite H0, H1, H2 in *. split; [congruence | reflexivity].
Qed.

Lemma predict_service_raises_witness :
  (app Edge.w_service_down Sample.cfg Sample.authorized_request
     initial_state).1
  = Return (JSONResponse [(py "error", JStr (py "Connection error."))] 200)
  /\ wire (app Edge.w_service_down Sample.cfg Sample.authorized_request
             initial_state).2
     = replicate 3 (completion_request Sample.cfg (py "Nota 123 XP")).
Proof.
  destruct (predict_service_raises Edge.w_service_down Sample.cfg
              Sample.authorized_request Sample.upload [37; 80; 68; 70]
              (py "Nota 123 XP") initial_state
              (Exn true (py "Connection error."))
              sample_authorized eq_refl eq_refl ltac:(discriminate)
              eq_refl eq_refl)
    as (Hans & _ & _ & Hthree).
  split; [exact Hans|].
  exact (proj2 (Hthree _ _ _ eq_refl eq_refl eq_refl)).
Defined.

(** When extraction raises an [Exception], the answer is [{"error": str(e)}]
    with status 200 and the completion service is not called. *)
Theorem predict_extraction_raises
    (w : World) (cfg : Config) (request : Request) (f : UploadFile)
    (data : bytes) (s : State) (e : exn) :
  authorized_upload cfg request f ->
  read f = Return data ->
  (extract_text_from_pdf w data (logged EvRead s)).1 = Raise e ->
  is_Exception e = true ->
  (app w cfg request s).1
  = Return (JSONResponse [(py "error", JStr (str e))] 200)
  /\ submitted (trace (app w cfg request s).2) = submitted (trace s).
Proof.
  intros Hauth Hread Hext He.
  rewrite (app_authorized w cfg request f s Hauth).
  unfold predict, try_except_Exception.
  rewrite (predict_body_eq w cfg f data s Hread).
  pose proof (submitted_extract_text_from_pdf w data (logged EvRead s)) as Hs.
  destruct (extract_text_from_pdf w data (logged EvRead s)) as [[t|e'] s1];
    simpl in Hext; [discriminate|].
  injection Hext as ->. rewrite He. simpl. split; [reflexivity|].
  simpl in Hs. rewrite Hs. unfold submitted. rewrite omap_app. simpl.
  apply app_nil_r.
Qed.

Lemma predict_extraction_raises_witness :
  (app Edge.w_bad_page Sample.cfg Sample.authorized_request initial_state).1
  = Return (JSONResponse [(py "error", JStr (py "bad page"))] 200)
  /\ submitted
       (trace (app Edge.w_bad_page Sample.cfg Sample.authorized_request
                 initial_state).2)
     = [].
Proof.
  exact (predict_extraction_raises Edge.w_bad_page Sample.cfg
           Sample.authorized_request Sample.upload [37; 80; 68; 70]
           initial_state (Exn true (py "bad page"))
           sample_authorized eq_refl eq_refl eq_refl).
Defined.

(** When reading the upload raises, nothing else is attempted: no temporary
    file is written, [PdfReader] and the client are not called.  An
    [Exception] is caught by the handler and answered as [{"error": str(e)}]
    with status 200; what is not an [Exception] is not caught and leaves the
    handler as it was raised. *)
Theorem predict_read_raises
    (w : World) (cfg : Config) (request : Request) (f : UploadFile)
    (s : State) (e : exn) :
  authorized_upload cfg request f ->
  read f = Raise e ->
  predict w cfg f s
  = (if is_Exception e
     then Return [(py "error", JStr (str e))]
     else Raise e,
     logged EvRead s)
  /\ (is_Exception e = true ->
      app w cfg request s
      = (Return (JSONResponse [(py "error", JStr (str e))] 200),
         logged EvRead s)).
Proof.
  intros Hauth Hread.
  rewrite (app_authorized w cfg request f s Hauth).
  unfold predict, try_except_Exception.
  rewrite (predict_body_read_raises w cfg f e s Hread).
  destruct (is_Exception e); split; try reflexivity; discriminate.
Qed.

Lemma edge_authorized (f : UploadFile) :
  authorized_upload Sample.cfg (Edge.post_upload f) f.
Proof.
  repeat split. exists (py "s3cret"). repeat split. discriminate.
Defined.

Lemma predict_read_raises_witness :
  app Sample.w_ok Sample.cfg (Edge.post_upload Edge.unreadable) initial_state
  = (Return (JSONResponse [(py "error", JStr (py "read failed"))] 200),
     logged EvRead initial_state)
  /\ predict Sample.w_ok Sample.cfg Edge.interrupted initial_state
     = (Raise (Exn false (py "cancelled")), logged EvRead initial_state).
Proof.
  split.
  - exact (proj2 (predict_read_raises Sample.w_ok Sample.cfg
                    (Edge.post_upload Edge.unreadable) Edge.unreadable
                    initial_state (Exn true (py "read failed"))
                    (edge_authorized Edge.unreadable) eq_refl) eq_refl).
  - exact (proj1 (predict_read_raises Sample.w_ok Sample.cfg
                    (Edge.post_upload Edge.interrupted) Edge.interrupted
                    initial_state (Exn false (py "cancelled"))
                    (edge_authorized Edge.interrupted) eq_refl)).
Defined.

(** The states in which [predict_body] can leave [s]. *)
Lemma predict_body_state_cases (w : World) (cfg : Config) (f : UploadFile)
    (s : State) :
  (predict_body w cfg f s).2 = logged EvRead s
  \/ (exists data,
        (predict_body w cfg f s).2
        = (extract_text_from_pdf w data (logged EvRead s)).2)
  \/ (exists data text,
        (predict_body w cfg f s).2
        = wired (replicate (sendings w (completion_request cfg text))
                   (completion_request cfg text))
            (logged (EvCreate (completion_request cfg text))
               (extract_text_from_pdf w data (logged EvRead s)).2)).
Proof.
  destruct (read f) as [data|e] eqn:Hread.
  - rewrite (predict_body_eq w cfg f data s Hread).
    destruct (extract_text_from_pdf w data (logged EvRead s))
      as [[text|e] s1] eqn:E.
    + destruct (py_not text).
      * right; left. exists data. now rewrite E.
      * right; right. exists data, text. now rewrite E.
    + right; left. exists data. now rewrite E.
  - left. now rewrite (predict_body_read_raises w cfg f e s Hread).
Qed.

(** The states in which the application can leave [s], for any request. *)
Lemma app_state_cases (w : World) (cfg : Config) (request : Request)
    (s : State) :
  (app w cfg request s).2 = s
  \/ (app w cfg request s).2 = logged EvRead s
  \/ (exists data,
        (app w cfg request s).2
        = (extract_text_from_pdf w data (logged EvRead s)).2)
  \/ (exists data text,
        (app w cfg request s).2
        = wired (replicate (sendings w (completion_request cfg text))
                   (completion_request cfg text))
            (logged (EvCreate (completion_request cfg text))
               (extract_text_from_pdf w data (logged EvRead s)).2)).
Proof.
  unfold app. rewrite guard_cases.
  destruct (_ && _); [now left|].
  unfold route.
  destruct (str_eqb (url_path request) (py "/predict")
            && str_eqb (method request) (py "POST")).
  - destruct (file request) as [f|]; [|now left].
    unfold mbind, M_bind, mret, M_ret.
    pose proof (predict_state w cfg f s) as Hst.
    pose proof (predict_body_state_cases w cfg f s) as Hcases.
    rewrite <- Hst in Hcases.
    destruct (predict w cfg f s) as [[d|e] s1]; simpl in *; right; exact Hcases.
  - destruct (str_eqb (url_path request) (py "/")
              && str_eqb (method request) (py "GET")); now left.
Qed.

(** Whatever the request and whatever the collaborators do, serving it calls
    [client.chat.completions.create] at most once, and at most three
    requests reach the completion service, each of them the request of that
    call: the client sends it once and again after a failure, twice at
    most.  Without a call nothing reaches the service. *)
Theorem app_at_most_one_call
    (w : World) (cfg : Config) (request : Request) (s : State) :
  exists (calls sent : list ChatRequest),
    submitted (trace (app w cfg request s).2) = submitted (trace s) ++ calls
    /\ wire (app w cfg request s).2 = wire s ++ sent
    /\ (length calls <= 1)%nat
    /\ (length sent <= 3)%nat
    /\ (calls = [] -> sent = [])
    /\ (forall req, req ∈ sent -> calls = [req]).
Proof.
  assert (Hread : submitted (trace (logged EvRead s)) = submitted (trace s)).
  { simpl. unfold submitted. rewrite omap_app. simpl. apply app_nil_r. }
  assert (Hnone : forall req : ChatRequest, req ∈ [] -> [] = [req]).
  { intros req Hin. now apply elem_of_nil in Hin. }
  destruct (app_state_cases w cfg request s)
    as [H|[H|[[data H]|[data [text H]]]]]; rewrite H.
  - exists [], []. rewrite !app_nil_r. simpl. repeat split; auto; lia.
  - exists [], []. rewrite Hread, !app_nil_r. simpl.
    repeat split; auto; lia.
  - exists [], []. rewrite submitted_extract_text_from_pdf,
      wire_extract_text_from_pdf, Hread, !app_nil_r. simpl.
    repeat split; auto; lia.
  - exists [completion_request cfg text],
      (replicate (sendings w (completion_request cfg text))
         (completion_request cfg text)).
    split; [apply submitted_after_call|].
    split; [simpl; now rewrite wire_extract_text_from_pdf|].
    split; [simpl; lia|].
    split; [rewrite length_replicate; apply attempts_bounds|].
    split; [discriminate|].
    intros req Hin. apply elem_of_replicate in Hin as [-> _]. reflexivity.
Qed.

(** Serving a request never changes or removes a file that exists, and adds
    at most one file. *)
Theorem app_files_only_grow
    (w : World) (cfg : Config) (request : Request) (s : State) :
  (forall name data,
      files s !! name = Some data ->
      files (app w cfg request s).2 !! name = Some data)
  /\ (size (files s) <= size (files (app w cfg request s).2)
      <= S (size (files s)))%nat.
Proof.
  assert (Hnew : files s !! fresh (dom (files s)) = None)
    by apply not_elem_of_dom, is_fresh.
  assert (Hins : forall (data : bytes) name old,
             files s !! name = Some old ->
             <[fresh (dom (files s)) := data]> (files s) !! name = Some old).
  { intros data name old Hold. rewrite lookup_insert_ne; [exact Hold|].
    intros E. rewrite <- E, Hnew in Hold. discriminate Hold. }
  destruct (app_state_cases w cfg request s)
    as [H|[H|[[data H]|[data [text H]]]]]; rewrite H; simpl;
    try (split; [auto | lia]);
    rewrite extract_text_from_pdf_files; simpl;
    (split; [apply Hins|]);
    rewrite map_size_insert_None by exact Hnew; lia.
Qed.

(** An authorized upload is always answered in one of two shapes, both with
    status 200: [{"error": <string>}] or [{"resultado": <string or null>}];
    the only other way out is an exception that is not an [Exception]. *)
Theorem predict_uniform_answer
    (w : World) (cfg : Config) (request : Request) (f : UploadFile)
    (s : State) :
  authorized_upload cfg request f ->
  (exists msg : pystr,
      (app w cfg request s).1
      = Return (JSONResponse [(py "error", JStr msg)] 200))
  \/ (exists v : json,
        (app w cfg request s).1
        = Return (JSONResponse [(py "resultado", v)] 200))
  \/ (exists e : exn,
        (app w cfg request s).1 = Raise e /\ is_Exception e = false).
Proof.
  intros Hauth.
  destruct (read f) as [data|e] eqn:Hread.
  - destruct (extract_text_from_pdf w data (logged EvRead s))
      as [[text|e] s1] eqn:E.
    + destruct text as [|c text].
      * left. eexists.
        rewrite (app_authorized w cfg request f s Hauth).
        unfold predict, try_except_Exception.
        rewrite (predict_body_eq w cfg f data s Hread), E. reflexivity.
      * rewrite (app_with_text_result w cfg request f data (c :: text) s
                   Hauth Hread ltac:(now rewrite E) ltac:(discriminate)).
        destruct (completions_create w _) as [completion|e].
        -- destruct (choices completion); [left | right; left]; eauto.
        -- destruct (is_Exception e) eqn:He; [left | right; right]; eauto.
    + rewrite (app_authorized w cfg request f s Hauth).
      unfold predict, try_except_Exception.
      rewrite (predict_body_eq w cfg f data s Hread), E.
      destruct (is_Exception e) eqn:He; [left | right; right]; eauto.
  - rewrite (app_authorized w cfg request f s Hauth).
    unfold predict, try_except_Exception.
    rewrite (predict_body_read_raises w cfg f e s Hread).
    destruct (is_Exception e) eqn:He; [left | right; right]; eauto.
Qed.

Lemma predict_uniform_answer_witness :
  (exists msg : pystr,
      (app Sample.w_ok Sample.cfg Sample.authorized_request initial_state).1
      = Return (JSONResponse [(py "error", JStr msg)] 200))
  \/ (exists v : json,
        (app Sample.w_ok Sample.cfg Sample.authorized_request
           initial_state).1
        = Return (JSONResponse [(py "resultado", v)] 200))
  \/ (exists e : exn,
        (app Sample.w_ok Sample.cfg Sample.authorized_request
           initial_state).1 = Raise e
        /\ is_Exception e = false).
Proof.
  exact (predict_uniform_answer Sample.w_ok Sample.cfg
           Sample.authorized_request Sample.upload initial_state
           sample_authorized).
Defined.

(** The order of the calls of a successful request: the upload is read, the
    temporary file is opened by [PdfReader], every page is asked for its text
    in document order, and only then is the one request sent, carrying the
    trimmed text. *)
Theorem predict_call_order
    (w : World) (cfg : Config) (request : Request) (f : UploadFile)
    (data : bytes) (texts : list (option pystr)) (s : State) :
  authorized_upload cfg request f ->
  read f = Return data ->
  pdf_reader w data = Return (map Return texts) ->
  strip (concat (map or_empty texts)) <> [] ->
  trace (app w cfg request s).2
  = trace s
    ++ [EvRead; EvPdfReader (fresh (dom (files s)))]
    ++ map EvExtractText (seq 0 (length texts))
    ++ [EvCreate
          (completion_request cfg (strip (concat (map or_empty texts))))].
Proof.
  intros Hauth Hread Hpdf Hne.
  assert (Hext : extract_text_from_pdf w data (logged EvRead s)
                 = (Return (strip (concat (map or_empty texts))),
                    {| files := <[fresh (dom (files s)) := data]> (files s);
                       handles := delete (fresh (dom (files s))) (handles s);
                       trace := (trace s ++ [EvRead])
                                ++ [EvPdfReader (fresh (dom (files s)))]
                                ++ map EvExtractText
                                     (seq 0 (length texts));
                       wire := wire s |})).
  { rewrite extract_text_from_pdf_eq, Hpdf, extract_pages_ok. simpl.
    now rewrite <- !app_assoc. }
  rewrite (proj1 (app_with_text w cfg request f data _ s Hauth Hread
                    ltac:(now rewrite Hext) Hne)).
  rewrite Hext. simpl. rewrite <- !app_assoc. reflexivity.
Qed.

Lemma predict_call_order_witness :
  trace (app Sample.w_ok Sample.cfg Sample.authorized_request
           initial_state).2
  = [EvRead; EvPdfReader 0; EvExtractText 0; EvExtractText 1;
     EvExtractText 2;
     EvCreate (completion_request Sample.cfg (py "Nota 123 XP"))].
Proof.
  exact (predict_call_order Sample.w_ok Sample.cfg Sample.authorized_request
           Sample.upload [37; 80; 68; 70]
           [Some (py " Nota 123 "); None; Some (py "XP  ")] initial_state
           sample_authorized eq_refl eq_refl ltac:(discriminate)).
Defined.

(** ** Start and first request together *)

Lemma module_init_ok (w : World) (credential : pystr) (s : State) :
  environ w !! "OPENAI_API_KEY"%string = Some credential ->
  credential <> [] ->
  module_init w s
  = (Return {| OPENAI_API_KEY := Some credential;
               API_KEY := environ w !! "API_KEY"%string;
               client := OpenAI (Some credential) |},
     logged (EvGetenv "API_KEY") (logged (EvGetenv "OPENAI_API_KEY") s)).
Proof.
  intros Hcred Hne. unfold module_init. run. rewrite Hcred.
  destruct credential; [contradiction | reflexivity].
Qed.

(** A credential set to the empty string counts as missing: the start raises
    [RuntimeError] and no request is served. *)
Theorem module_init_empty_credential
    (w : World) (request : Request) (s : State) :
  environ w !! "OPENAI_API_KEY"%string = @Some pystr [] ->
  (module_init w s).1
  = Raise (RuntimeError
             (py "❌ Variável de ambiente OPENAI_API_KEY não configurada."))
  /\ (serve w request s).1
     = Raise (RuntimeError
                (py "❌ Variável de ambiente OPENAI_API_KEY não configurada."))
  /\ trace (serve w request s).2
     = trace s ++ [EvGetenv "OPENAI_API_KEY"; EvGetenv "API_KEY"].
Proof.
  intros Henv.
  assert (Hinit : module_init w s
                  = (Raise (RuntimeError
                              (py "❌ Variável de ambiente OPENAI_API_KEY não configurada.")),
                     logged (EvGetenv "API_KEY")
                       (logged (EvGetenv "OPENAI_API_KEY") s))).
  { unfold module_init. run. now rewrite Henv. }
  unfold serve, mbind, M_bind. rewrite Hinit. simpl.
  repeat split. now rewrite <- app_assoc.
Qed.

Lemma module_init_empty_credential_witness :
  (serve Edge.w_empty_credential Sample.authorized_request initial_state).1
  = Raise (RuntimeError
             (py "❌ Variável de ambiente OPENAI_API_KEY não configurada.")).
Proof.
  exact (proj1 (proj2 (module_init_empty_credential Edge.w_empty_credential
                         Sample.authorized_request initial_state eq_refl))).
Defined.

(** Start and request together.  The secret read from [API_KEY] at the start
    is what the [X-API-Key] header is compared with: a request under
    [/predict] whose header is missing or differs is answered 401 and nothing
    happens after the two reads of the environment, and one that carries the
    secret reaches the handler.  The credential read from [OPENAI_API_KEY] is
    the key of the client through which the one call then goes out, with the
    prompt built on the extracted text. *)
Theorem serve_uses_environment
    (w : World) (request : Request) (credential secret : pystr) (s : State) :
  environ w !! "OPENAI_API_KEY"%string = Some credential ->
  credential <> [] ->
  environ w !! "API_KEY"%string = Some secret ->
  secret <> [] ->
  let started :=
    logged (EvGetenv "API_KEY") (logged (EvGetenv "OPENAI_API_KEY") s) in
  (startswith (url_path request) (py "/predict") = true ->
   headers_get (headers request) (py "X-API-Key") <> Some secret ->
   serve w request s = (Return Unauthorized, started))
  /\ (forall (f : UploadFile) (data : bytes) (text : pystr),
        url_path request = py "/predict" ->
        method request = py "POST" ->
        file request = Some f ->
        headers_get (headers request) (py "X-API-Key") = Some secret ->
        read f = Return data ->
        (extract_text_from_pdf w data (logged EvRead started)).1
          = Return text ->
        text <> [] ->
        exists req : ChatRequest,
          submitted (trace (serve w request s).2)
            = submitted (trace s) ++ [req]
          /\ api_key req = Some credential
          /\ messages req
             = [ {| role := py "system"; message_content := system_content |};
                 {| role := py "user";
                    message_content :=
                      prompt_head ++ take 6000%nat text ++ prompt_tail |} ]).
Proof.
  intros Hcred Hcne Hsec Hsne started.
  unfold serve, mbind, M_bind.
  rewrite (module_init_ok w credential s Hcred Hcne), Hsec.
  fold started.
  set (cfg := {| OPENAI_API_KEY := Some credential; API_KEY := Some secret;
                 client := OpenAI (Some credential) |}).
  split.
  - intros Hpath Hkey. unfold app. rewrite guard_cases, Hpath.
    assert (Hrej : py_not_opt (API_KEY cfg)
                   || negb (opt_str_eqb
                              (headers_get (headers request) (py "X-API-Key"))
                              (API_KEY cfg)) = true).
    { apply reject_condition. right; right. exact Hkey. }
    now rewrite Hrej.
  - intros f data text Hpath Hmeth Hfile Hkey Hread Htext Hne.
    assert (Hauth : authorized_upload cfg request f).
    { repeat split; trivial. exists secret. repeat split; trivial. }
    exists (completion_request cfg text). split; [|split; reflexivity].
    rewrite (proj1 (app_with_text w cfg request f data text started
                      Hauth Hread Htext Hne)).
    rewrite submitted_after_call. subst started. simpl.
    unfold submitted. rewrite !omap_app. simpl. now rewrite !app_nil_r.
Qed.

Lemma serve_uses_environment_witness :
  serve Sample.w_ok (Sample.post_predict (Sample.with_key (py "guess")))
    initial_state
  = (Return Unauthorized,
     logged (EvGetenv "API_KEY")
       (logged (EvGetenv "OPENAI_API_KEY") initial_state))
  /\ exists req : ChatRequest,
       submitted
         (trace (serve Sample.w_ok Sample.authorized_request
                   initial_state).2)
       = [] ++ [req]
       /\ api_key req = Some (py "sk-test")
       /\ messages req
          = [ {| role := py "system"; message_content := system_content |};
              {| role := py "user";
                 message_content :=
                   prompt_head ++ take 6000%nat (py "Nota 123 XP")
                   ++ prompt_tail |} ].
Proof.
  split.
  - apply (proj1 (serve_uses_environment Sample.w_ok
                    (Sample.post_predict (Sample.with_key (py "guess")))
                    (py "sk-test") (py "s3cret") initial_state
                    eq_refl ltac:(discriminate) eq_refl ltac:(discriminate)));
      [reflexivity | discriminate].
  - exact (proj2 (serve_uses_environment Sample.w_ok
                    Sample.authorized_request
                    (py "sk-test") (py "s3cret") initial_state
                    eq_refl ltac:(discriminate) eq_refl ltac:(discriminate))
             Sample.upload [37; 80; 68; 70] (py "Nota 123 XP")
             eq_refl eq_refl eq_refl eq_refl eq_refl eq_refl
             ltac:(discriminate)).
Defined.

(** ** Extraction as a function of the upload *)

Lemma extract_pages_text (pages : list Page) (i : nat) (text : pystr)
    (s : State) :
  (extract_pages pages i text s).1
  = match pages_text pages with
    | Return joined => Return (text ++ joined)
    | Raise e => Raise e
    end.
Proof.
  revert i text s. induction pages as [|page rest IH]; intros i text s.
  - simpl. now rewrite app_nil_r.
  - simpl. run. destruct page as [t|e]; simpl; [|reflexivity].
    rewrite IH. destruct (pages_text rest); [|reflexivity].
    now rewrite app_assoc.
Qed.

(** The outcome of the operation is what [PdfReader] and the pages make of
    exactly the uploaded bytes: the exception of [PdfReader], else the
    exception of the first page that raises, else the trimmed joined text;
    files and handles that already exist and earlier calls have no part in
    it. *)
Theorem extract_text_from_pdf_of_upload
    (w : World) (data : bytes) (s : State) :
  (extract_text_from_pdf w data s).1 = document_text w data.
Proof.
  rewrite extract_text_from_pdf_eq. unfold document_text.
  destruct (pdf_reader w data) as [pages|e]; simpl; [|reflexivity].
  rewrite extract_pages_text. destruct (pages_text pages); reflexivity.
Qed.
